(** * Dimensioned weather quantities of python-metar ([wxdatatypes.py])

    A shallow embedding of the classes [temperature], [pressure], [speed],
    [distance] and [direction].  The module is Python 2 code ([has_key],
    [iteritems]): [/] on two integers is floor division and [round] rounds
    halves away from zero.  Python floats are IEEE 754 binary64 numbers and
    are modelled by Rocq's primitive floats, which are the same format with
    the same round-to-nearest-even operations. *)

From Stdlib Require Import ZArith List String Ascii Bool Lia Floats DecimalString.
Import ListNotations.

Set Warnings "-inexact-float".
Local Open Scope string_scope.
Local Open Scope Z_scope.

(** ** The part of the Python runtime the module relies on *)

(** Exceptions that can leave the module. *)
Inductive exn : Set :=
| UnitsError
| ValueError
| TypeError
| AttributeError
| UnboundLocalError
| OverflowError
| ZeroDivisionError.

Inductive result (A : Type) : Type :=
| Ok (a : A)
| Raise (e : exn).

Arguments Ok {A} a.
Arguments Raise {A} e.

Definition bind {A B : Type} (m : result A) (k : A -> result B) : result B :=
  match m with
  | Ok a => k a
  | Raise e => Raise e
  end.

Notation "x <- m ;; k" := (bind m (fun x => k))
  (at level 61, m at next level, right associativity).

(** What a caller passes as the [value] argument of a constructor: a report
    token (a string), or a number. *)
Inductive pyval : Set :=
| PyInt (z : Z)
| PyFloat (f : float)
| PyStr (s : string).

(** *** Strings *)

Definition upper_char (c : ascii) : ascii :=
  let n := nat_of_ascii c in
  if ((97 <=? n) && (n <=? 122))%nat then ascii_of_nat (n - 32) else c.

Definition lower_char (c : ascii) : ascii :=
  let n := nat_of_ascii c in
  if ((65 <=? n) && (n <=? 90))%nat then ascii_of_nat (n + 32) else c.

(** [s.upper()] *)
Fixpoint upper (s : string) : string :=
  match s with
  | EmptyString => EmptyString
  | String c r => String (upper_char c) (upper r)
  end.

(** [s in l] for a list of strings *)
Definition mem (s : string) (l : list string) : bool :=
  existsb (String.eqb s) l.

(** [not s] for an optional string argument: [None] and [""] are falsy. *)
Definition falsy (o : option string) : bool :=
  match o with
  | None => true
  | Some s => String.eqb s ""
  end.

Definition isspace (c : ascii) : bool :=
  let n := nat_of_ascii c in
  ((n =? 32) || ((9 <=? n) && (n <=? 13)))%nat.

Definition isdigit (c : ascii) : bool :=
  let n := nat_of_ascii c in
  ((48 <=? n) && (n <=? 57))%nat.

Fixpoint span (p : ascii -> bool) (l : list ascii) : list ascii * list ascii :=
  match l with
  | c :: r =>
      if p c then let (a, b) := span p r in (c :: a, b) else ([], l)
  | [] => ([], [])
  end.

Fixpoint lstrip (l : list ascii) : list ascii :=
  match l with
  | c :: r => if isspace c then lstrip r else l
  | [] => []
  end.

(** [s.strip()] *)
Definition strip (l : list ascii) : list ascii :=
  rev (lstrip (rev (lstrip l))).

(** The number a run of decimal digits denotes: [int(s)] for [s] in [\d+]. *)
Definition digit (c : ascii) : Z := Z.of_nat (nat_of_ascii c) - 48.

Definition int_of_digits (l : list ascii) : Z :=
  fold_left (fun a c => 10 * a + digit c) l 0.

(** ["%d" % z] *)
Definition format_d (z : Z) : string :=
  NilZero.string_of_int (Z.to_int z).

(** *** Floats *)

(** The binary64 number nearest to [(-1)^neg * m * 10^k] (ties to even), as
    the correctly rounded string conversion of [float()] yields it. *)
Definition round_decimal (neg : bool) (m k : Z) : float :=
  SF2Prim
    match m with
    | Zpos p =>
        if 0 <=? k
        then binary_round prec emax neg (p * Z.to_pos (10 ^ k)) 0
        else SFdiv prec emax (S754_finite neg p 0)
                             (S754_finite false (Z.to_pos (10 ^ (- k))) 0)
    | _ => S754_zero neg
    end.

Definition read_sign (l : list ascii) : bool * list ascii :=
  match l with
  | "-"%char :: r => (true, r)
  | "+"%char :: r => (false, r)
  | _ => (false, l)
  end.

Definition is_exp_mark (c : ascii) : bool :=
  Ascii.eqb c "e"%char || Ascii.eqb c "E"%char.

(** [float(s)] for a string: surrounding whitespace is dropped; what is left
    is an optionally signed [inf], [infinity] or [nan] in any case, or a
    decimal literal with an optional exponent.  Anything else raises
    [ValueError]. *)
Definition float_of_string (s : string) : result float :=
  let l := strip (list_ascii_of_string s) in
  let (neg, l1) := read_sign l in
  let name := string_of_list_ascii (map lower_char l1) in
  if String.eqb name "inf" || String.eqb name "infinity"
  then Ok (if neg then neg_infinity else infinity)
  else if String.eqb name "nan" then Ok nan
  else
    let (ip, l2) := span isdigit l1 in
    let (fp, l3) :=
      match l2 with
      | "."%char :: r => span isdigit r
      | _ => ([], l2)
      end in
    match (ip ++ fp)%list with
    | [] => Raise ValueError
    | ds =>
        let m := int_of_digits ds in
        let k := - Z.of_nat (List.length fp) in
        match l3 with
        | [] => Ok (round_decimal neg m k)
        | c :: r =>
            if is_exp_mark c then
              let (eneg, r1) := read_sign r in
              match span isdigit r1 with
              | ((_ :: _) as ed, []) =>
                  let e := int_of_digits ed in
                  Ok (round_decimal neg m ((if eneg then - e else e) + k))
              | _ => Raise ValueError
              end
            else Raise ValueError
        end
    end.

(** [float(z)] for an integer: correctly rounded, [OverflowError] when the
    integer is too large for a float. *)
Definition float_of_Z (z : Z) : result float :=
  match binary_normalize prec emax z 0 false with
  | S754_infinity _ => Raise OverflowError
  | f => Ok (SF2Prim f)
  end.

(** The builtin [float(v)]. *)
Definition py_float (v : pyval) : result float :=
  match v with
  | PyStr s => float_of_string s
  | PyInt z => float_of_Z z
  | PyFloat f => Ok f
  end.

(** The builtin [int(f)] on a float: truncation towards zero. *)
Definition int_of_float (f : float) : result Z :=
  match Prim2SF f with
  | S754_nan => Raise ValueError
  | S754_infinity _ => Raise OverflowError
  | S754_zero _ => Ok 0
  | S754_finite s m e => Ok (cond_Zopp s (Z.shiftl (Zpos m) e))
  end.

(** The builtin [round(f)] of Python 2: the nearest integer as a float,
    halves away from zero; zeros, infinities and nan round to themselves. *)
Definition py_round (f : float) : float :=
  match Prim2SF f with
  | S754_finite s m e =>
      if 0 <=? e then f
      else
        let q := Z.shiftl (Zpos m) e in
        let r := if Z.testbit (Zpos m) (- e - 1) then q + 1 else q in
        SF2Prim (binary_normalize prec emax (cond_Zopp s r) 0 s)
  | _ => f
  end.

(** [x / y] on floats: Python raises where IEEE division by zero would
    return an infinity or nan. *)
Definition float_div (x y : float) : result float :=
  if (y =? 0)%float then Raise ZeroDivisionError else Ok (x / y)%float.

(** *** Formatting *)

Fixpoint zeros (n : nat) : string :=
  match n with
  | O => ""
  | S k => String "0" (zeros k)
  end.

(** [s] padded on the left with zeros to [w] characters. *)
Definition zfill (w : nat) (s : string) : string :=
  (zeros (w - String.length s) ++ s)%string.

(** The integer nearest to [n / d] for [d > 0], ties to even. *)
Definition div_half_even (n d : Z) : Z :=
  let q := n / d in
  match 2 * (n mod d) ?= d with
  | Lt => q
  | Gt => q + 1
  | Eq => if Z.even q then q else q + 1
  end.

(** [n] (non-negative, already scaled by [10^p]) with [p] decimals. *)
Definition fixed (p : nat) (n : Z) : string :=
  let d := 10 ^ Z.of_nat p in
  match p with
  | O => format_d n
  | _ => (format_d (n / d) ++ "." ++ zfill p (format_d (n mod d)))%string
  end.

Fixpoint rstrip_zeros (l : list ascii) : list ascii :=
  match l with
  | c :: r =>
      match rstrip_zeros r with
      | [] => if Ascii.eqb c "0"%char then [] else [c]
      | r' => c :: r'
      end
  | [] => []
  end.

(** ["%.<p>g" % v] for an integer [v >= 10^50]: [max p 1] significant
    digits, trailing zeros removed, exponent form. *)
Definition sci (p : nat) (v : Z) : string :=
  let P := Z.of_nat (Nat.max p 1) in
  let D := Z.of_nat (String.length (format_d v)) in
  let n0 := div_half_even v (10 ^ (D - P)) in
  let (n, X) := if n0 =? 10 ^ P then (10 ^ (P - 1), D) else (n0, D - 1) in
  match list_ascii_of_string (format_d n) with
  | c :: r =>
      let frac :=
        match rstrip_zeros r with
        | [] => ""
        | r' => String "." (string_of_list_ascii r')
        end in
      (String c frac ++ "e+" ++ zfill 2 (format_d X))%string
  | [] => ""
  end.

(** ["%.<p>f" % f]: the exact binary value rounded to [p] decimals, ties to
    even; Python 2 switches to the ["%.<p>g"] form from [1e50] on. *)
Definition format_f (p : nat) (f : float) : string :=
  match Prim2SF f with
  | S754_nan => "nan"
  | S754_infinity s => if s then "-inf" else "inf"
  | S754_zero s => ((if s then "-" else "") ++ fixed p 0)%string
  | S754_finite s m e =>
      let body :=
        if 0 <=? e then
          let v := Zpos m * 2 ^ e in
          if 10 ^ 50 <=? v then sci p v else fixed p (v * 10 ^ Z.of_nat p)
        else fixed p (div_half_even (Zpos m * 10 ^ Z.of_nat p) (2 ^ (- e))) in
      ((if s then "-" else "") ++ body)%string
  end.

(** Reading an attribute that [__init__] may have left unset, and a local
    variable that no branch may have assigned. *)
Definition attr {A : Type} (o : option A) : result A :=
  match o with
  | Some a => Ok a
  | None => Raise AttributeError
  end.

Definition local {A : Type} (o : option A) : result A :=
  match o with
  | Some a => Ok a
  | None => Raise UnboundLocalError
  end.

(** The operand of a [%f] conversion must be a number: [None] is refused. *)
Definition fmt_f (p : nat) (suffix : string) (val : option float) : result (option string) :=
  match val with
  | Some v => Ok (Some (format_f p v ++ suffix)%string)
  | None => Raise TypeError
  end.

(** The string behind an optional argument that was found truthy. *)
Definition given (o : option string) : string :=
  match o with
  | Some s => s
  | None => ""
  end.

(** [units.upper() in legal_units], raising [UnitsError] otherwise. *)
Definition check_units (legal_units : list string) (units : string) : result string :=
  if negb (mem (upper units) legal_units) then Raise UnitsError
  else Ok (upper units).

(** ** [class temperature] *)

Module temperature.

Definition legal_units : list string := ["F"; "C"; "K"].

(** [_value] is absent when [__init__] returned without assigning it. *)
Record t : Set := { _units : string; _value : option float }.

Definition __init__ (value : pyval) (units : option string) : result t :=
  let units := match units with Some u => u | None => "C" end in
  units <- check_units legal_units units ;;
  match py_float value with
  | Ok v => Ok {| _units := units; _value := Some v |}
  | Raise ValueError =>
      match value with
      | PyStr s =>
          match s with
          | String "M" rest =>
              v <- float_of_string rest ;;
              Ok {| _units := units; _value := Some (- v)%float |}
          | _ => Ok {| _units := units; _value := None |}
          end
      | _ => Raise AttributeError
      end
  | Raise e => Raise e
  end.

Definition value (self : t) (units : option string) : result (option float) :=
  match units with
  | None => v <- attr (_value self) ;; Ok (Some v)
  | Some units =>
      units <- check_units legal_units units ;;
      celsius_value <-
        (if String.eqb (_units self) "C" then
           v <- attr (_value self) ;; Ok (Some v)
         else if String.eqb (_units self) "F" then
           v <- attr (_value self) ;; Ok (Some ((v - 32.0) / 1.8)%float)
         else if String.eqb (_units self) "K" then
           v <- attr (_value self) ;; Ok (Some (v - 273.15)%float)
         else Ok None) ;;
      if String.eqb units "C" then
        c <- local celsius_value ;; Ok (Some c)
      else if String.eqb units "K" then
        c <- local celsius_value ;; Ok (Some (273.15 + c)%float)
      else if String.eqb units "F" then
        c <- local celsius_value ;; Ok (Some (32.0 + c * 1.8)%float)
      else Ok None
  end.

Definition string (self : t) (units : option String.string)
  : result (option String.string) :=
  units <- match units with
           | None => Ok (_units self)
           | Some u => check_units legal_units u
           end ;;
  val <- value self (Some units) ;;
  if String.eqb units "C" then fmt_f 1 " C" val
  else if String.eqb units "F" then fmt_f 1 " F" val
  else if String.eqb units "K" then fmt_f 1 " K" val
  else Ok None.

End temperature.

(** ** [class pressure] *)

Module pressure.

Definition legal_units : list string := ["MB"; "HPA"; "IN"].

Record t : Set := { _value : float; _units : string }.

Definition __init__ (value : pyval) (units : option string) : result t :=
  let units := match units with Some u => u | None => "MB" end in
  units <- check_units legal_units units ;;
  v <- py_float value ;;
  Ok {| _value := v; _units := units |}.

Definition value (self : t) (units : option string) : result (option float) :=
  match units with
  | None => Ok (Some (_value self))
  | Some units =>
      units <- check_units legal_units units ;;
      if String.eqb units (_units self) then Ok (Some (_value self))
      else
        let mb_value :=
          if String.eqb (_units self) "IN"
          then (_value self * 33.86398)%float
          else _value self in
        if String.eqb units "MB" || String.eqb units "HPA" then Ok (Some mb_value)
        else if String.eqb units "IN" then Ok (Some (mb_value / 33.86398)%float)
        else Raise UnitsError
  end.

Definition string (self : t) (units : option String.string)
  : result (option String.string) :=
  units <- (if falsy units then Ok (_units self)
            else check_units legal_units (given units)) ;;
  val <- value self (Some units) ;;
  if String.eqb units "MB" then fmt_f 1 " mb" val
  else if String.eqb units "HPA" then fmt_f 1 " hPa" val
  else if String.eqb units "IN" then fmt_f 2 " inches" val
  else Ok None.

End pressure.

(** [gtlt and not gtlt in legal_gtlt] *)
Definition bad_gtlt (legal_gtlt : list string) (gtlt : option string) : bool :=
  match gtlt with
  | Some g => negb (String.eqb g "") && negb (mem g legal_gtlt)
  | None => false
  end.

(** The qualifier words [string()] puts in front of the text. *)
Definition with_gtlt (gtlt : option string) (text : string) : string :=
  match gtlt with
  | Some g =>
      if String.eqb g ">" then ("greater than " ++ text)%string
      else if String.eqb g "<" then ("less than " ++ text)%string
      else text
  | None => text
  end.

(** ** [class speed] *)

Module speed.

Definition legal_units : list string := ["KT"; "MPS"; "KMH"; "MPH"].
Definition legal_gtlt : list string := [">"; "<"].

Record t : Set := { _units : string; _gtlt : option string; _value : float }.

Definition __init__ (value : pyval) (units gtlt : option string) : result t :=
  units <- (if falsy units then Ok "MPS"
            else check_units legal_units (given units)) ;;
  if bad_gtlt legal_gtlt gtlt then Raise ValueError
  else
    v <- py_float value ;;
    Ok {| _units := units; _gtlt := gtlt; _value := v |}.

(** The branch for [KMH] divides the unit string ([self._units/3.6]), a
    [TypeError]; the branch for [MPH] assigns [mbs_value], so [mps_value]
    stays unbound. *)
Definition value (self : t) (units : option string) : result (option float) :=
  if falsy units then Ok (Some (_value self))
  else
    units <- check_units legal_units (given units) ;;
    if String.eqb units (_units self) then Ok (Some (_value self))
    else
      mps_value <-
        (if String.eqb (_units self) "KMH" then Raise TypeError
         else if String.eqb (_units self) "KT" then Ok (Some (_value self * 0.514444)%float)
         else if String.eqb (_units self) "MPH" then Ok None
         else Ok (Some (_value self))) ;;
      if String.eqb units "KMH" then
        m <- local mps_value ;; Ok (Some (m * 3.6)%float)
      else if String.eqb units "KT" then
        m <- local mps_value ;; Ok (Some (m / 0.514444)%float)
      else if String.eqb units "MPH" then
        m <- local mps_value ;; Ok (Some (m / 0.447000)%float)
      else if String.eqb units "MPS" then
        m <- local mps_value ;; Ok (Some m)
      else Ok None.

Definition string (self : t) (units : option String.string)
  : result String.string :=
  units <- (if falsy units then Ok (_units self)
            else check_units legal_units (given units)) ;;
  val <- value self (Some units) ;;
  text <-
    (if String.eqb units "KMH" then fmt_f 0 " km/h" val
     else if String.eqb units "KT" then fmt_f 0 " knots" val
     else if String.eqb units "MPH" then fmt_f 0 " mph" val
     else if String.eqb units "MPS" then fmt_f 1 " mps" val
     else Ok None) ;;
  text <- local text ;;
  Ok (with_gtlt (_gtlt self) text).

End speed.

(** ** [FRACTION_RE] *)

(** The groups of a match of
    [^((?P<int>\d+)\s+)?(?P<num>\d+)/(?P<den>\d+)$]. *)
Record groupdict : Set :=
  { g_int : option (list ascii); g_num : list ascii; g_den : list ascii }.

(** [$]: the end of the string, or just before a newline that ends it. *)
Definition at_end (l : list ascii) : bool :=
  match l with
  | [] => true
  | [c] => Ascii.eqb c "010"%char
  | _ => false
  end.

(** [(?P<num>\d+)/(?P<den>\d+)$] *)
Definition match_num_den (int : option (list ascii)) (l : list ascii) : option groupdict :=
  match span isdigit l with
  | ((_ :: _) as num, "/"%char :: l1) =>
      match span isdigit l1 with
      | ((_ :: _) as den, l2) =>
          if at_end l2 then Some {| g_int := int; g_num := num; g_den := den |}
          else None
      | _ => None
      end
  | _ => None
  end.

(** [FRACTION_RE.match(s)].  The optional group can only match a run of
    digits that whitespace follows, and the pattern cannot match without it
    then, so no backtracking is involved. *)
Definition FRACTION_RE (s : string) : option groupdict :=
  let l := list_ascii_of_string s in
  match span isdigit l with
  | ((_ :: _) as int, c :: r) =>
      if isspace c then match_num_den (Some int) (lstrip r)
      else match_num_den None l
  | _ => None
  end.

(** ** [class distance] *)

Module distance.

Definition legal_units : list string := ["SM"; "MI"; "M"; "KM"; "FT"].
Definition legal_gtlt : list string := [">"; "<"].

Record t : Set :=
  { _units : string;
    _gtlt : option string;
    _value : float;
    _num : option Z;
    _den : option Z }.

(** The [try] block of [__init__]: a leading [M] or [P] is removed from a
    string and decides [gtlt]; [startswith] on a number raises, which the
    bare [except] ignores. *)
Definition strip_prefix (value : pyval) (gtlt : option string) : pyval * option string :=
  match value with
  | PyStr (String "M" rest) => (PyStr rest, Some "<")
  | PyStr (String "P" rest) => (PyStr rest, Some ">")
  | _ => (value, gtlt)
  end.

(** The second [try] block: [(_value, _num, _den)]. *)
Definition parse_value (value : pyval) : result (float * option Z * option Z) :=
  match py_float value with
  | Ok v => Ok (v, None, None)
  | Raise ValueError =>
      match value with
      | PyStr s =>
          match FRACTION_RE s with
          | None => Raise ValueError
          | Some df =>
              let num := int_of_digits (g_num df) in
              let den := int_of_digits (g_den df) in
              fnum <- float_of_Z num ;;
              fden <- float_of_Z den ;;
              v <- float_div fnum fden ;;
              v <- match g_int df with
                   | Some i =>
                       fi <- float_of_string (string_of_list_ascii i) ;;
                       Ok (v + fi)%float
                   | None => Ok v
                   end ;;
              Ok (v, Some num, Some den)
          end
      | _ => Raise TypeError
      end
  | Raise e => Raise e
  end.

Definition __init__ (value : pyval) (units gtlt : option string) : result t :=
  units <- (if falsy units then Ok "M"
            else check_units legal_units (given units)) ;;
  let (value, gtlt) := strip_prefix value gtlt in
  if bad_gtlt legal_gtlt gtlt then Raise ValueError
  else
    p <- parse_value value ;;
    let '(v, num, den) := p in
    Ok {| _units := units; _gtlt := gtlt; _value := v; _num := num; _den := den |}.

Definition value (self : t) (units : option string) : result (option float) :=
  if falsy units then Ok (Some (_value self))
  else
    units <- check_units legal_units (given units) ;;
    if String.eqb units (_units self) then Ok (Some (_value self))
    else
      let m_value :=
        if String.eqb (_units self) "SM" || String.eqb (_units self) "MI"
        then (_value self * 1609.344)%float
        else if String.eqb (_units self) "FT" then (_value self / 3.28084)%float
        else if String.eqb (_units self) "KM" then (_value self * 1000)%float
        else _value self in
      if String.eqb units "SM" || String.eqb units "MI"
      then Ok (Some (m_value / 1609.344)%float)
      else if String.eqb units "FT" then Ok (Some (m_value * 3.28084)%float)
      else if String.eqb units "KM" then Ok (Some (m_value / 1000)%float)
      else if String.eqb units "M" then Ok (Some m_value)
      else Ok None.

(** [self._num and self._den]: both set and non-zero. *)
Definition has_fraction (self : t) : option (Z * Z) :=
  match _num self, _den self with
  | Some n, Some d => if (n =? 0) || (d =? 0) then None else Some (n, d)
  | _, _ => None
  end.

(** The unit word appended to the text. *)
Definition unit_word (units : String.string) : String.string :=
  if String.eqb units "SM" || String.eqb units "MI" then " miles"
  else if String.eqb units "M" then " meters"
  else if String.eqb units "KM" then " km"
  else if String.eqb units "FT" then " feet"
  else "".

(** [self._num/self._den] divides two integers, so it is the floor of the
    quotient. *)
Definition string (self : t) (units : option String.string)
  : result String.string :=
  units <- (if falsy units then Ok (_units self)
            else check_units legal_units (given units)) ;;
  text <-
    match (if String.eqb units (_units self) then has_fraction self else None) with
    | Some (num, den) =>
        q <- float_of_Z (num / den) ;;
        val <- int_of_float (_value self - q)%float ;;
        if val =? 0
        then Ok (format_d num ++ "/" ++ format_d den)%string
        else Ok (format_d val ++ " " ++ format_d num ++ "/" ++ format_d den)%string
    | None =>
        val <- value self (Some units) ;;
        text <- (if String.eqb units "KM" then fmt_f 1 "" val else fmt_f 0 "" val) ;;
        local text
    end ;;
  Ok (with_gtlt (_gtlt self) (text ++ unit_word units)%string).

End distance.

(** ** [class direction] *)

Module direction.

(** The entries of the dictionary, in the order of the source.  The order
    in which Python goes through a dictionary is not this one; no two
    entries have the same degrees, so the search of [compass] does not
    depend on it ([find_name_any_order]). *)
Definition compass_dirs : list (string * float) :=
  [ ("N", 0.0); ("NNE", 22.5); ("NE", 45.0); ("ENE", 67.5);
    ("E", 90.0); ("ESE", 112.5); ("SE", 135.0); ("SSE", 157.5);
    ("S", 180.0); ("SSW", 202.5); ("SW", 225.0); ("WSW", 247.5);
    ("W", 270.0); ("WNW", 292.5); ("NW", 315.0); ("NNW", 337.5) ]%float.

(** [compass_dirs[d]] *)
Fixpoint lookup (d : string) (l : list (string * float)) : option float :=
  match l with
  | (name, deg) :: r => if String.eqb name d then Some deg else lookup d r
  | [] => None
  end.

Record t : Set := { _compass : option string; _degrees : float }.

(** [compass_dirs.has_key(d)], with the entry found: only a string can
    be one of the keys. *)
Definition has_key (d : pyval) : option (String.string * float) :=
  match d with
  | PyStr s => option_map (pair s) (lookup s compass_dirs)
  | _ => None
  end.

Definition __init__ (d : pyval) : result t :=
  match has_key d with
  | Some (name, deg) => Ok {| _compass := Some name; _degrees := deg |}
  | None =>
      value <- py_float d ;;
      if (value <? 0.0)%float || (360.0 <? value)%float then Raise ValueError
      else Ok {| _compass := None; _degrees := value |}
  end.

Definition value (self : t) : float := _degrees self.

Definition string (self : t) : String.string :=
  (format_f 0 (_degrees self) ++ " degrees")%string.

(** The [for] loop of [compass]: the first entry whose degrees equal
    [degrees]. *)
Fixpoint find_name (degrees : float) (l : list (String.string * float))
  : option String.string :=
  match l with
  | (name, d) :: r => if (d =? degrees)%float then Some name else find_name degrees r
  | [] => None
  end.

(** [compass()] caches its result in [_compass]: the call returns the
    name together with the instance it leaves behind. *)
Definition compass (self : t) : option String.string * t :=
  if falsy (_compass self) then
    let degrees := (22.5 * py_round (_degrees self / 22.5))%float in
    let c :=
      if (degrees =? 360.0)%float then Some "N"
      else match find_name degrees compass_dirs with
           | Some name => Some name
           | None => _compass self
           end in
    (c, {| _compass := c; _degrees := _degrees self |})
  else (_compass self, self).

End direction.


(** ** Definitions used to state the properties *)

(** Characters that occur in no string [float()] accepts. *)
Definition foreign (c : ascii) : bool :=
  negb (isdigit c || isspace c
        || existsb (Ascii.eqb c) (list_ascii_of_string "+-.")
        || existsb (Ascii.eqb (lower_char c)) (list_ascii_of_string "einfatyn")).

(** The stored value of a fraction: [float(num)/float(den)], plus
    [float(int)] when the token has a whole part. *)
Definition fraction_value (df : groupdict) : result float :=
  fnum <- float_of_Z (int_of_digits (g_num df)) ;;
  fden <- float_of_Z (int_of_digits (g_den df)) ;;
  v <- float_div fnum fden ;;
  match g_int df with
  | Some i => fi <- float_of_string (string_of_list_ascii i) ;; Ok (v + fi)%float
  | None => Ok v
  end.









(** The mantissa of [22.5] (exponent [-48]) and of [360.0] (exponent
    [-44]). *)
Definition m45 : positive := 6333186975989760.

(** [name] is the compass point of the bucket value [b]: [N] when [b] is
    [360], the name whose degrees in the table equal [b] otherwise. *)
Definition names_bucket (b : float) (name : string) : Prop :=
  ((b =? 360)%float = true /\ name = "N")
  \/ ((b =? 360)%float = false
      /\ exists deg, direction.lookup name direction.compass_dirs = Some deg
                     /\ (deg =? b)%float = true).

(** The float of the integer [k] from [0] to [16], and the midpoint above
    it. *)
Definition index (k : Z) : float := SF2Prim (binary_normalize prec emax k 0 false).
Definition midpoint (k : Z) : float := (index k + 0.5)%float.

(** The name of the [i]-th compass point, counted from [N] around the
    circle. *)
Definition point (i : Z) : string :=
  fst (nth (Z.to_nat (i mod 16)) direction.compass_dirs ("", 0%float)).

(** The cases of an entry that is in [compass_dirs]. *)
Ltac in_table H :=
  unfold direction.compass_dirs in H; cbn [In] in H;
  repeat (destruct H as [H|H]; [injection H as <- <-|]); [..|contradiction].

(** Splits a disjunction of equations into its cases. *)
Ltac each_case H :=
  repeat (destruct H as [H|H]; [subst|]); [..|subst].

(** The text of a speed [v] in the legal unit [U]. *)
Definition speed_text (U : string) (v : float) : string :=
  if String.eqb U "KMH" then (format_f 0 v ++ " km/h")%string
  else if String.eqb U "KT" then (format_f 0 v ++ " knots")%string
  else if String.eqb U "MPH" then (format_f 0 v ++ " mph")%string
  else (format_f 1 v ++ " mps")%string.

(** A speed and a distance without their qualifier. *)
Definition speed_unqualified (t : speed.t) : speed.t :=
  {| speed._units := speed._units t; speed._gtlt := None;
     speed._value := speed._value t |}.

Definition distance_unqualified (t : distance.t) : distance.t :=
  {| distance._units := distance._units t; distance._gtlt := None;
     distance._value := distance._value t;
     distance._num := distance._num t; distance._den := distance._den t |}.

(** The unit word of a pressure in the legal unit [U], and the number of
    decimals it is printed with. *)
Definition pressure_word (U : string) : string :=
  if String.eqb U "MB" then " mb"
  else if String.eqb U "HPA" then " hPa"
  else " inches".

Definition pressure_decimals (U : string) : nat :=
  if String.eqb U "IN" then 2%nat else 1%nat.

(** [U] is one of the two names of the millibar. *)
Definition millibar (U : string) : bool := String.eqb U "MB" || String.eqb U "HPA".

(** The Celsius value of [v] degrees in the unit [U], and back. *)
Definition to_celsius (U : string) (v : float) : float :=
  if String.eqb U "C" then v
  else if String.eqb U "F" then ((v - 32.0) / 1.8)%float
  else (v - 273.15)%float.

Definition of_celsius (U : string) (c : float) : float :=
  if String.eqb U "C" then c
  else if String.eqb U "K" then (273.15 + c)%float
  else (32.0 + c * 1.8)%float.

(** [U] is one of the two names of the statute mile. *)
Definition statute (U : string) : bool := String.eqb U "SM" || String.eqb U "MI".

(** The length in meters of [v] in the legal unit [U], and back. *)
Definition to_meters (U : string) (v : float) : float :=
  if statute U then (v * 1609.344)%float
  else if String.eqb U "FT" then (v / 3.28084)%float
  else if String.eqb U "KM" then (v * 1000)%float
  else v.

Definition of_meters (U : string) (m : float) : float :=
  if statute U then (m / 1609.344)%float
  else if String.eqb U "FT" then (m * 3.28084)%float
  else if String.eqb U "KM" then (m / 1000)%float
  else m.


(** * Properties *)

(** ** The runtime *)

Lemma bind_ok {A B : Type} (m : result A) (k : A -> result B) (b : B) :
  bind m k = Ok b -> exists a, m = Ok a /\ k a = Ok b.
Proof.
  destruct m as [a|e]; simpl; intros H; [exists a; auto | discriminate].
Qed.

Lemma check_units_ok (legal : list string) (u U : string) :
  check_units legal u = Ok U -> U = upper u /\ mem U legal = true.
Proof.
  unfold check_units. destruct (mem (upper u) legal) eqn:E; simpl; intros H.
  - injection H as <-. auto.
  - discriminate.
Qed.

Lemma check_units_mem (legal : list string) (u : string) :
  mem (upper u) legal = true -> check_units legal u = Ok (upper u).
Proof. unfold check_units. intros ->. reflexivity. Qed.

Lemma check_units_raise (legal : list string) (u : string) :
  mem (upper u) legal = false -> check_units legal u = Raise UnitsError.
Proof. unfold check_units. intros ->. reflexivity. Qed.

Lemma upper_empty (u : string) : upper u = "" -> u = "".
Proof. destruct u; simpl; [reflexivity | discriminate]. Qed.

Lemma falsy_some (u : string) : u <> "" -> falsy (Some u) = false.
Proof.
  intros H. simpl. destruct (String.eqb_spec u ""); [contradiction | reflexivity].
Qed.

Lemma mem_nonempty (legal : list string) (u : string) :
  mem (upper u) legal = true -> mem "" legal = false -> u <> "".
Proof. intros H1 H2 ->. simpl in H1. congruence. Qed.

Lemma span_spec (p : ascii -> bool) (l a b : list ascii) :
  span p l = (a, b) -> l = (a ++ b)%list /\ Forall (fun c => p c = true) a.
Proof.
  revert a b. induction l as [|c r IH]; simpl; intros a b H.
  - injection H as <- <-. auto.
  - destruct (p c) eqn:E.
    + destruct (span p r) as [a' b'] eqn:S. injection H as <- <-.
      destruct (IH a' b' eq_refl) as [-> F]. auto.
    + injection H as <- <-. auto.
Qed.

Lemma span_rest (p : ascii -> bool) (l a b : list ascii) (c : ascii) :
  span p l = (a, b) -> In c l -> p c = false -> In c b.
Proof.
  intros H I N. destruct (span_spec _ _ _ _ H) as [-> F].
  apply in_app_or in I. destruct I as [I|I]; [|assumption].
  rewrite Forall_forall in F. rewrite (F _ I) in N. discriminate.
Qed.

Lemma in_lstrip (c : ascii) (l : list ascii) :
  In c l -> isspace c = false -> In c (lstrip l).
Proof.
  intros I N. induction l as [|a r IH]; simpl in *; [contradiction|].
  destruct (isspace a) eqn:E.
  - destruct I as [->|I]; [congruence | auto].
  - assumption.
Qed.

Lemma in_strip (c : ascii) (l : list ascii) :
  In c l -> isspace c = false -> In c (strip l).
Proof.
  intros I N. unfold strip. rewrite <- in_rev. apply in_lstrip; [|assumption].
  rewrite <- in_rev. apply in_lstrip; assumption.
Qed.

Lemma foreign_spec (c : ascii) :
  foreign c = true ->
  isdigit c = false /\ isspace c = false /\
  c <> "+"%char /\ c <> "-"%char /\ c <> "."%char /\ is_exp_mark c = false /\
  ~ In (lower_char c) (list_ascii_of_string "infinity") /\
  ~ In (lower_char c) (list_ascii_of_string "nan").
Proof.
  unfold foreign. rewrite negb_true_iff, !orb_false_iff.
  intros [[[D S] P] L]. cbn [existsb list_ascii_of_string] in P, L.
  repeat rewrite orb_false_iff in P. repeat rewrite orb_false_iff in L.
  destruct P as (P1 & P2 & P3 & _).
  destruct L as (L1 & L2 & L3 & L4 & L5 & L6 & L7 & _).
  rewrite Ascii.eqb_neq in *.
  repeat split; auto; try congruence.
  - unfold is_exp_mark. apply orb_false_iff. split; apply Ascii.eqb_neq.
    + intros ->. apply L1. reflexivity.
    + intros ->. apply L1. reflexivity.
  - simpl. intuition congruence.
  - simpl. intuition congruence.
Qed.

Lemma name_chars (l : list ascii) (w : string) (c : ascii) :
  String.eqb (string_of_list_ascii (map lower_char l)) w = true ->
  In c l -> In (lower_char c) (list_ascii_of_string w).
Proof.
  intros E I. apply String.eqb_eq in E. rewrite <- E.
  rewrite list_ascii_of_string_of_list_ascii. apply in_map. assumption.
Qed.

Lemma read_sign_rest (l l1 : list ascii) (neg : bool) (c : ascii) :
  read_sign l = (neg, l1) -> In c l ->
  c <> "+"%char -> c <> "-"%char -> In c l1.
Proof.
  intros H I P M. unfold read_sign in H.
  destruct l as [|a r]; [contradiction|].
  destruct (Ascii.eqb_spec a "-"%char) as [->|N1].
  - injection H as <- <-. destruct I as [I|I]; [congruence | assumption].
  - destruct (Ascii.eqb_spec a "+"%char) as [->|N2].
    + injection H as <- <-. destruct I as [I|I]; [congruence | assumption].
    + assert (l1 = a :: r) as ->; [|assumption].
      destruct a as [[] [] [] [] [] [] [] []]; try congruence;
        injection H as <- <-; reflexivity.
Qed.

(** [float()] refuses every string with a character outside its alphabet. *)
Lemma float_of_string_foreign (s : string) (c : ascii) :
  In c (list_ascii_of_string s) -> foreign c = true ->
  float_of_string s = Raise ValueError.
Proof.
  intros I F. apply foreign_spec in F.
  destruct F as (D & S & P & M & Dot & E & Ninf & Nnan).
  unfold float_of_string.
  pose proof (in_strip _ _ I S) as I1.
  destruct (read_sign (strip (list_ascii_of_string s))) as [neg l1] eqn:RS.
  pose proof (read_sign_rest _ _ _ _ RS I1 P M) as I2.
  destruct (String.eqb _ "inf") eqn:E1.
  { exfalso. apply Ninf. pose proof (name_chars _ _ _ E1 I2) as H.
    simpl in H. simpl. intuition. }
  destruct (String.eqb _ "infinity") eqn:E2.
  { exfalso. apply Ninf. exact (name_chars _ _ _ E2 I2). }
  destruct (String.eqb _ "nan") eqn:E3.
  { exfalso. apply Nnan. exact (name_chars _ _ _ E3 I2). }
  simpl.
  destruct (span isdigit l1) as [ip l2] eqn:S1.
  pose proof (span_rest _ _ _ _ _ S1 I2 D) as I3.
  assert (exists fp l3, (match l2 with
                         | "."%char :: r => span isdigit r
                         | _ => ([], l2)
                         end) = (fp, l3) /\ In c l3) as (fp & l3 & -> & I4).
  { destruct l2 as [|a r]; [contradiction|].
    destruct (Ascii.eqb_spec a "."%char) as [->|N].
    - destruct (span isdigit r) as [fp l3] eqn:S2. exists fp, l3. split; [reflexivity|].
      destruct I3 as [I3|I3]; [congruence|]. exact (span_rest _ _ _ _ _ S2 I3 D).
    - exists [], (a :: r). split; [|assumption].
      destruct a as [[] [] [] [] [] [] [] []]; try congruence; reflexivity. }
  destruct (ip ++ fp)%list as [|d0 ds]; [reflexivity|].
  destruct l3 as [|a r]; [contradiction|].
  destruct (is_exp_mark a) eqn:EM; [|reflexivity].
  destruct I4 as [->|I4]; [congruence|].
  destruct (read_sign r) as [eneg r1] eqn:RS2.
  pose proof (read_sign_rest _ _ _ _ RS2 I4 P M) as I5.
  destruct (span isdigit r1) as [ed r2] eqn:S3.
  pose proof (span_rest _ _ _ _ _ S3 I5 D) as I6.
  destruct ed as [|e0 ed]; [reflexivity|].
  destruct r2; [contradiction | reflexivity].
Qed.

Lemma float_of_string_M (rest : string) :
  float_of_string (String "M" rest) = Raise ValueError.
Proof.
  apply (float_of_string_foreign _ "M"%char); [simpl; auto | reflexivity].
Qed.

(** ** [temperature] *)

(** A token [float()] refuses and that does not begin with [M] leaves the
    handler of [ValueError] without [_value] assigned: [__init__] returns. *)
Lemma temperature_init_swallows (s U : string) (units : option string) :
  float_of_string s = Raise ValueError ->
  (forall rest, s <> String "M" rest) ->
  check_units temperature.legal_units
    (match units with Some u => u | None => "C" end) = Ok U ->
  temperature.__init__ (PyStr s) units
  = Ok {| temperature._units := U; temperature._value := None |}.
Proof.
  intros F M C. unfold temperature.__init__. rewrite C. simpl. rewrite F.
  destruct s as [|a r]; [reflexivity|].
  destruct (Ascii.eqb_spec a "M"%char) as [->|N]; [elim (M r); reflexivity|].
  destruct a as [[] [] [] [] [] [] [] []]; try reflexivity. congruence.
Qed.

(** C2, evaluated at the token ["abc"]: the constructor returns an instance
    that has a unit and no value, and reading the value of that instance
    fails with [AttributeError]. *)
Theorem temperature_init_partial_instance :
  temperature.__init__ (PyStr "abc") (Some "C")
  = Ok {| temperature._units := "C"; temperature._value := None |}
  /\ temperature.value
       {| temperature._units := "C"; temperature._value := None |} None
     = Raise AttributeError
  /\ temperature.string
       {| temperature._units := "C"; temperature._value := None |} None
     = Raise AttributeError
  /\ pressure.__init__ (PyStr "abc") (Some "MB") = Raise ValueError.
Proof. repeat split; vm_compute; reflexivity. Qed.

(** C7: a token [M<rest>] whose remainder [float()] reads as [n] builds an
    instance that stores [-n] in the construction unit (Celsius when none is
    given); [value()] and [string()] work on that negated value, and
    [temperature("M05", "C").value("F")] is [23.0]. *)
Theorem temperature_M_prefix_negates
    (rest : string) (n : float) (units : option string) (U : string) :
  float_of_string rest = Ok n ->
  check_units temperature.legal_units
    (match units with Some u => u | None => "C" end) = Ok U ->
  let t := {| temperature._units := U; temperature._value := Some (- n)%float |} in
  temperature.__init__ (PyStr (String "M" rest)) units = Ok t
  /\ temperature.value t None = Ok (Some (- n)%float)
  /\ (U = "C" ->
      (units = None \/ exists u, units = Some u /\ upper u = "C")
      /\ temperature.value t (Some "C") = Ok (Some (- n)%float)
      /\ temperature.value t (Some "F") = Ok (Some (32.0 + (- n) * 1.8)%float)
      /\ temperature.value t (Some "K") = Ok (Some (273.15 + (- n))%float)
      /\ temperature.string t None = Ok (Some (format_f 1 (- n) ++ " C")%string)
      /\ temperature.string t (Some "F")
         = Ok (Some (format_f 1 (32.0 + (- n) * 1.8) ++ " F")%string))
  /\ (t <- temperature.__init__ (PyStr "M05") (Some "C") ;;
      temperature.value t (Some "F")) = Ok (Some 23.0%float).
Proof.
  intros F C t. repeat split.
  - unfold temperature.__init__. rewrite C. simpl bind.
    unfold py_float. rewrite float_of_string_M. rewrite F. reflexivity.
  - destruct units as [u|]; [right | left; reflexivity].
    exists u. split; [reflexivity|]. apply check_units_ok in C. subst U. symmetry. tauto.
  - subst t U. reflexivity.
  - subst t U. reflexivity.
  - subst t U. reflexivity.
  - subst t U. reflexivity.
  - subst t U. reflexivity.
Qed.

Lemma temperature_M_prefix_negates_witness :
  temperature.__init__ (PyStr "M05") (Some "C")
  = Ok {| temperature._units := "C"; temperature._value := Some (-5.0)%float |}.
Proof.
  assert (F : float_of_string "05" = Ok 5.0%float) by (vm_compute; reflexivity).
  assert (C : check_units temperature.legal_units "C" = Ok "C") by reflexivity.
  exact (proj1 (temperature_M_prefix_negates "05" 5.0%float (Some "C") "C" F C)).
Defined.

(** ** [speed] *)

(** Whatever the stored value, converting from [KMH] to another unit raises
    [TypeError] and converting from [MPH] raises [UnboundLocalError]. *)
Lemma speed_value_KMH (t : speed.t) (u U : string) :
  speed._units t = "KMH" ->
  check_units speed.legal_units u = Ok U -> U <> "KMH" ->
  speed.value t (Some u) = Raise TypeError.
Proof.
  intros K C N. unfold speed.value.
  destruct (check_units_ok _ _ _ C) as [-> M].
  rewrite falsy_some by (apply (mem_nonempty _ _ M); reflexivity).
  simpl given. rewrite C. simpl bind. rewrite K.
  destruct (String.eqb_spec (upper u) "KMH"); [contradiction | reflexivity].
Qed.

Lemma speed_value_MPH (t : speed.t) (u U : string) :
  speed._units t = "MPH" ->
  check_units speed.legal_units u = Ok U -> U <> "MPH" ->
  speed.value t (Some u) = Raise UnboundLocalError.
Proof.
  intros K C N. unfold speed.value.
  destruct (check_units_ok _ _ _ C) as [-> M].
  rewrite falsy_some by (apply (mem_nonempty _ _ M); reflexivity).
  simpl given. rewrite C. simpl bind. rewrite K.
  destruct (String.eqb_spec (upper u) "MPH"); [contradiction|].
  simpl bind. unfold speed.legal_units, mem in M. simpl in M.
  apply String.eqb_neq in n.
  destruct (upper u =? "KMH")%string; [reflexivity|].
  destruct (upper u =? "KT")%string; [reflexivity|].
  destruct (upper u =? "MPS")%string; [reflexivity|].
  rewrite n in M. discriminate.
Qed.

(** C1, evaluated at [speed("10", "KMH").value("MPS")] and at
    [speed("10", "MPH").value("MPS")]: the first call raises [TypeError], the
    second [UnboundLocalError]; neither returns [10/3.6] or [10*0.447].  The
    conversions from [KT] and [MPS] do return. *)
Theorem speed_value_KMH_MPH_raise :
  (t <- speed.__init__ (PyStr "10") (Some "KMH") None ;; speed.value t (Some "MPS"))
  = Raise TypeError
  /\ (t <- speed.__init__ (PyStr "10") (Some "MPH") None ;; speed.value t (Some "MPS"))
     = Raise UnboundLocalError
  /\ (t <- speed.__init__ (PyStr "10") (Some "KT") None ;; speed.value t (Some "MPS"))
     = Ok (Some (10 * 0.514444)%float)
  /\ (t <- speed.__init__ (PyStr "10") (Some "MPS") None ;; speed.value t (Some "KMH"))
     = Ok (Some (10 * 3.6)%float).
Proof. repeat split; vm_compute; reflexivity. Qed.

(** ** The construction unit is a legal unit *)

Lemma pressure_init_units (v : pyval) (u0 : option string) (t : pressure.t) :
  pressure.__init__ v u0 = Ok t ->
  mem (pressure._units t) pressure.legal_units = true.
Proof.
  unfold pressure.__init__. intros H.
  apply bind_ok in H. destruct H as (U & C & H).
  apply bind_ok in H. destruct H as (f & _ & H). injection H as <-.
  apply check_units_ok in C. tauto.
Qed.

Lemma default_or_checked (legal : list string) (d U : string) (u0 : option string) :
  mem d legal = true ->
  (if falsy u0 then Ok d else check_units legal (given u0)) = Ok U ->
  mem U legal = true.
Proof.
  intros D. destruct (falsy u0).
  - intros H. injection H as <-. assumption.
  - intros H. apply check_units_ok in H. tauto.
Qed.

Lemma speed_init_units (v : pyval) (u0 g : option string) (t : speed.t) :
  speed.__init__ v u0 g = Ok t ->
  mem (speed._units t) speed.legal_units = true.
Proof.
  unfold speed.__init__. intros H.
  apply bind_ok in H. destruct H as (U & C & H).
  destruct (bad_gtlt speed.legal_gtlt g); [discriminate|].
  apply bind_ok in H. destruct H as (f & _ & H). injection H as <-.
  exact (default_or_checked speed.legal_units "MPS" _ _ eq_refl C).
Qed.

Lemma distance_init_units (v : pyval) (u0 g : option string) (t : distance.t) :
  distance.__init__ v u0 g = Ok t ->
  mem (distance._units t) distance.legal_units = true.
Proof.
  unfold distance.__init__. intros H.
  apply bind_ok in H. destruct H as (U & C & H).
  destruct (distance.strip_prefix v g) as [v' g'].
  destruct (bad_gtlt distance.legal_gtlt g'); [discriminate|].
  apply bind_ok in H. destruct H as ([[f n] d] & _ & H). injection H as <-.
  exact (default_or_checked distance.legal_units "M" _ _ eq_refl C).
Qed.

(** C10: for a pressure, speed or distance that was constructed, [value(u)]
    with a unit [u] whose upper-case form is the construction unit returns
    the stored [_value] itself, the float that [value()] returns, with no
    arithmetic applied. *)
Theorem value_in_construction_unit_is_raw :
  (forall (v : pyval) (u0 : option string) (t : pressure.t) (u : string),
      pressure.__init__ v u0 = Ok t -> upper u = pressure._units t ->
      pressure.value t (Some u) = Ok (Some (pressure._value t))
      /\ pressure.value t None = Ok (Some (pressure._value t)))
  /\ (forall (v : pyval) (u0 g : option string) (t : speed.t) (u : string),
      speed.__init__ v u0 g = Ok t -> upper u = speed._units t ->
      speed.value t (Some u) = Ok (Some (speed._value t))
      /\ speed.value t None = Ok (Some (speed._value t)))
  /\ (forall (v : pyval) (u0 g : option string) (t : distance.t) (u : string),
      distance.__init__ v u0 g = Ok t -> upper u = distance._units t ->
      distance.value t (Some u) = Ok (Some (distance._value t))
      /\ distance.value t None = Ok (Some (distance._value t))).
Proof.
  split; [|split].
  - intros v u0 t u I E. split; [|reflexivity].
    apply pressure_init_units in I. rewrite <- E in I.
    unfold pressure.value. rewrite (check_units_mem _ _ I). simpl bind.
    rewrite E, String.eqb_refl. reflexivity.
  - intros v u0 g t u I E. split; [|reflexivity].
    apply speed_init_units in I. rewrite <- E in I.
    unfold speed.value.
    rewrite falsy_some by (apply (mem_nonempty _ _ I); reflexivity).
    simpl given. rewrite (check_units_mem _ _ I). simpl bind.
    rewrite E, String.eqb_refl. reflexivity.
  - intros v u0 g t u I E. split; [|reflexivity].
    apply distance_init_units in I. rewrite <- E in I.
    unfold distance.value.
    rewrite falsy_some by (apply (mem_nonempty _ _ I); reflexivity).
    simpl given. rewrite (check_units_mem _ _ I). simpl bind.
    rewrite E, String.eqb_refl. reflexivity.
Qed.

Lemma value_in_construction_unit_is_raw_witness :
  pressure.value {| pressure._value := 29.92; pressure._units := "IN" |} (Some "In")
  = Ok (Some 29.92%float)
  /\ speed.value
       {| speed._units := "KMH"; speed._gtlt := None; speed._value := 10 |} (Some "kmh")
     = Ok (Some 10%float)
  /\ distance.value
       {| distance._units := "SM"; distance._gtlt := None; distance._value := 1.75;
          distance._num := Some 3; distance._den := Some 4 |} (Some "sm")
     = Ok (Some 1.75%float).
Proof.
  destruct value_in_construction_unit_is_raw as (P & S & D).
  split; [|split].
  - refine (proj1 (P (PyStr "29.92") (Some "in") _ "In" _ _));
      [vm_compute; reflexivity | reflexivity].
  - refine (proj1 (S (PyStr "10") (Some "kmh") None _ "kmh" _ _));
      [vm_compute; reflexivity | reflexivity].
  - refine (proj1 (D (PyStr "1 3/4") (Some "SM") None _ "sm" _ _));
      [vm_compute; reflexivity | reflexivity].
Defined.

(** ** Unit strings outside the legal set *)

(** C3 as stated fails at the empty string: it belongs to no legal set, yet
    [speed] and [distance] take it for an omitted unit and use their
    default, and [value("")] and [string("")] answer in the construction
    unit. *)
Lemma empty_unit_is_defaulted :
  mem (upper "") speed.legal_units = false
  /\ mem (upper "") distance.legal_units = false
  /\ speed.__init__ (PyStr "10") (Some "") None
     = Ok {| speed._units := "MPS"; speed._gtlt := None; speed._value := 10 |}
  /\ distance.__init__ (PyStr "10") (Some "") None
     = Ok {| distance._units := "M"; distance._gtlt := None; distance._value := 10;
             distance._num := None; distance._den := None |}
  /\ speed.value
       {| speed._units := "KT"; speed._gtlt := None; speed._value := 10 |} (Some "")
     = Ok (Some 10%float)
  /\ pressure.string {| pressure._value := 1013; pressure._units := "MB" |} (Some "")
     = Ok (Some "1013.0 mb").
Proof. repeat split; vm_compute; reflexivity. Qed.

(** C3, amended: a unit string that is not, in upper case, in the legal set
    of the kind makes the constructor, [value()] and [string()] raise
    [UnitsError]: for [temperature] and for the constructor and [value()] of
    [pressure] whatever the string, for [speed], [distance] and
    [pressure.string()] when the string is not empty. *)
Theorem unrecognized_unit_raises (u : string) :
  (mem (upper u) temperature.legal_units = false ->
   (forall v, temperature.__init__ v (Some u) = Raise UnitsError)
   /\ (forall t, temperature.value t (Some u) = Raise UnitsError)
   /\ (forall t, temperature.string t (Some u) = Raise UnitsError))
  /\ (mem (upper u) pressure.legal_units = false ->
      (forall v, pressure.__init__ v (Some u) = Raise UnitsError)
      /\ (forall t, pressure.value t (Some u) = Raise UnitsError)
      /\ (u <> "" -> forall t, pressure.string t (Some u) = Raise UnitsError))
  /\ (mem (upper u) speed.legal_units = false -> u <> "" ->
      (forall v g, speed.__init__ v (Some u) g = Raise UnitsError)
      /\ (forall t, speed.value t (Some u) = Raise UnitsError)
      /\ (forall t, speed.string t (Some u) = Raise UnitsError))
  /\ (mem (upper u) distance.legal_units = false -> u <> "" ->
      (forall v g, distance.__init__ v (Some u) g = Raise UnitsError)
      /\ (forall t, distance.value t (Some u) = Raise UnitsError)
      /\ (forall t, distance.string t (Some u) = Raise UnitsError)).
Proof.
  split; [|split; [|split]].
  - intros M. apply check_units_raise in M. repeat split; intros.
    + unfold temperature.__init__. rewrite M. reflexivity.
    + unfold temperature.value. rewrite M. reflexivity.
    + unfold temperature.string. rewrite M. reflexivity.
  - intros M. apply check_units_raise in M. repeat split; intros.
    + unfold pressure.__init__. rewrite M. reflexivity.
    + unfold pressure.value. rewrite M. reflexivity.
    + unfold pressure.string. rewrite falsy_some by assumption.
      simpl given. rewrite M. reflexivity.
  - intros M N. apply check_units_raise in M. repeat split; intros.
    + unfold speed.__init__. rewrite falsy_some by assumption.
      simpl given. rewrite M. reflexivity.
    + unfold speed.value. rewrite falsy_some by assumption.
      simpl given. rewrite M. reflexivity.
    + unfold speed.string. rewrite falsy_some by assumption.
      simpl given. rewrite M. reflexivity.
  - intros M N. apply check_units_raise in M. repeat split; intros.
    + unfold distance.__init__. rewrite falsy_some by assumption.
      simpl given. rewrite M. reflexivity.
    + unfold distance.value. rewrite falsy_some by assumption.
      simpl given. rewrite M. reflexivity.
    + unfold distance.string. rewrite falsy_some by assumption.
      simpl given. rewrite M. reflexivity.
Qed.

Lemma unrecognized_unit_raises_witness :
  pressure.__init__ (PyFloat 29.92) (Some "ATM") = Raise UnitsError
  /\ temperature.__init__ (PyStr "20") (Some "ATM") = Raise UnitsError
  /\ speed.__init__ (PyInt 10) (Some "ATM") None = Raise UnitsError
  /\ distance.value
       {| distance._units := "M"; distance._gtlt := None; distance._value := 10;
          distance._num := None; distance._den := None |} (Some "ATM")
     = Raise UnitsError.
Proof.
  destruct (unrecognized_unit_raises "ATM") as (T & P & S & D).
  assert (N : "ATM" <> "") by discriminate.
  split; [|split; [|split]].
  - exact (proj1 (P eq_refl) _).
  - exact (proj1 (T eq_refl) _).
  - exact (proj1 (S eq_refl N) _ _).
  - exact (proj1 (proj2 (D eq_refl N)) _).
Defined.

(** ** [distance]: the prefixes [M] and [P] *)

(** C9: a token that begins with [M] (with [P]) is constructed as its
    remainder with the qualifier [<] (resp. [>]): the [gtlt] argument, legal
    or not, plays no role, and the remainder is what is parsed as the
    number. *)
Theorem distance_prefix_sets_gtlt (rest : string) (units gtlt : option string) :
  distance.__init__ (PyStr (String "M" rest)) units gtlt
  = (U <- (if falsy units then Ok "M"
           else check_units distance.legal_units (given units)) ;;
     p <- distance.parse_value (PyStr rest) ;;
     Ok {| distance._units := U; distance._gtlt := Some "<";
           distance._value := fst (fst p);
           distance._num := snd (fst p); distance._den := snd p |})
  /\ distance.__init__ (PyStr (String "P" rest)) units gtlt
     = (U <- (if falsy units then Ok "M"
              else check_units distance.legal_units (given units)) ;;
        p <- distance.parse_value (PyStr rest) ;;
        Ok {| distance._units := U; distance._gtlt := Some ">";
              distance._value := fst (fst p);
              distance._num := snd (fst p); distance._den := snd p |}).
Proof.
  unfold distance.__init__. split.
  - destruct (if falsy units then _ else _) as [U|e]; [|reflexivity].
    simpl. destruct (distance.parse_value (PyStr rest)) as [[[v n] d]|e]; reflexivity.
  - destruct (if falsy units then _ else _) as [U|e]; [|reflexivity].
    simpl. destruct (distance.parse_value (PyStr rest)) as [[[v n] d]|e]; reflexivity.
Qed.

(** ** [distance]: fraction tokens *)




(** What a match of [(?P<num>\d+)/(?P<den>\d+)$] consists of. *)
Lemma match_num_den_spec (int : option (list ascii)) (l : list ascii) (df : groupdict) :
  match_num_den int l = Some df ->
  g_int df = int
  /\ In "/"%char l
  /\ Forall (fun c => isdigit c = true) (g_num df)
  /\ Forall (fun c => isdigit c = true) (g_den df)
  /\ exists tail, at_end tail = true
                  /\ l = (g_num df ++ "/"%char :: g_den df ++ tail)%list.
Proof.
  unfold match_num_den.
  destruct (span isdigit l) as [num l1] eqn:S1.
  destruct num as [|n0 num]; [discriminate|].
  destruct l1 as [|a l1]; [discriminate|].
  destruct (Ascii.eqb_spec a "/"%char) as [->|N].
  2:{ destruct a as [[] [] [] [] [] [] [] []]; try discriminate. congruence. }
  destruct (span isdigit l1) as [den l2] eqn:S2.
  destruct den as [|d0 den]; [discriminate|].
  destruct (at_end l2) eqn:E; [|discriminate].
  intros H. injection H as <-. simpl.
  destruct (span_spec _ _ _ _ S1) as [-> F1].
  destruct (span_spec _ _ _ _ S2) as [-> F2].
  repeat split; auto.
  - apply in_or_app. right. left. reflexivity.
  - exists l2. split; [assumption|]. reflexivity.
Qed.




Lemma fraction_value_den (df : groupdict) (v : float) :
  fraction_value df = Ok v -> int_of_digits (g_den df) <> 0.
Proof.
  unfold fraction_value. intros H Z. rewrite Z in H.
  destruct (float_of_Z (int_of_digits (g_num df))) as [fn|e]; [|discriminate].
  simpl in H. discriminate.
Qed.





(** ** [temperature]: Celsius to Fahrenheit and back *)






(** ** [distance]: the text of a fraction *)

Lemma legal_unit_cases (U : string) :
  mem U distance.legal_units = true ->
  U = "SM" \/ U = "MI" \/ U = "M" \/ U = "KM" \/ U = "FT".
Proof.
  unfold mem, distance.legal_units. cbn [existsb].
  rewrite !orb_true_iff, !String.eqb_eq. intuition discriminate.
Qed.


#[local] Arguments String.eqb : simpl nomatch.

Lemma append_empty_r (s : string) : (s ++ "")%string = s.
Proof. induction s as [|c r IH]; simpl; [reflexivity | rewrite IH; reflexivity]. Qed.


Lemma distance_init_inv (value : pyval) (units gtlt : option string) (t : distance.t) :
  distance.__init__ value units gtlt = Ok t ->
  distance.parse_value (fst (distance.strip_prefix value gtlt))
  = Ok (distance._value t, distance._num t, distance._den t)
  /\ distance._gtlt t = snd (distance.strip_prefix value gtlt).
Proof.
  unfold distance.__init__. intros I.
  apply bind_ok in I. destruct I as (U & _ & I).
  destruct (distance.strip_prefix value gtlt) as [v' g'].
  destruct (bad_gtlt distance.legal_gtlt g'); [discriminate|].
  apply bind_ok in I. destruct I as ([[v n] d] & P & I). injection I as <-.
  simpl. auto.
Qed.






(** ** Rounding cannot pass a power of two *)

Lemma digits2_pos_size (p : positive) : digits2_pos p = Pos.size p.
Proof. induction p as [p IH|p IH|]; simpl; congruence. Qed.

Lemma Zdigits2_nonneg (m : Z) : 0 <= Zdigits2 m.
Proof. destruct m; simpl; lia. Qed.

Lemma Zdigits2_le (m k : Z) : 0 <= k -> 0 <= m < 2 ^ k -> Zdigits2 m <= k.
Proof.
  intros K [L U]. destruct m as [|p|p]; cbn [Zdigits2]; try lia.
  rewrite digits2_pos_size.
  pose proof (Pos.size_le p) as S.
  assert (T : 2 ^ Zpos (Pos.size p) <= 2 * Zpos p).
  { change 2 with (Zpos 2) at 1. rewrite <- Pos2Z.inj_pow.
    change (2 * Zpos p) with (Zpos p~0). lia. }
  destruct (Z_lt_le_dec k (Zpos (Pos.size p))) as [G|G]; [|assumption].
  exfalso.
  assert (2 ^ (k + 1) <= 2 ^ Zpos (Pos.size p)) by (apply Z.pow_le_mono_r; lia).
  rewrite Z.pow_add_r in H by lia. lia.
Qed.

Lemma Zdigits2_gt (p : positive) : Zpos p < 2 ^ Zdigits2 (Zpos p).
Proof.
  cbn [Zdigits2]. rewrite digits2_pos_size. pose proof (Pos.size_gt p) as S.
  change 2 with (Zpos 2). rewrite <- Pos2Z.inj_pow. lia.
Qed.

Lemma Zdigits2_ge (p : positive) : 2 ^ (Zdigits2 (Zpos p) - 1) <= Zpos p.
Proof.
  cbn [Zdigits2]. rewrite digits2_pos_size. pose proof (Pos.size_le p) as S.
  assert (T : 2 ^ Zpos (Pos.size p) <= 2 * Zpos p).
  { change 2 with (Zpos 2) at 1. rewrite <- Pos2Z.inj_pow.
    change (2 * Zpos p) with (Zpos p~0). lia. }
  replace (Zpos (Pos.size p)) with (Zpos (Pos.size p) - 1 + 1) in T by lia.
  rewrite Z.pow_add_r in T by lia. lia.
Qed.

Lemma pow2_pos (n : Z) : 0 <= n -> 0 < 2 ^ n.
Proof. intros. apply Z.pow_pos_nonneg; lia. Qed.

Lemma lt_pow2_shift (x y j n : Z) :
  0 <= n -> 0 <= j -> x * 2 ^ n <= y -> y < 2 ^ (j + n) -> x < 2 ^ j.
Proof.
  intros N J L U. rewrite Z.pow_add_r in U by lia.
  pose proof (pow2_pos n N). nia.
Qed.

Lemma le_pow2_shift (x y j n : Z) :
  0 <= n -> 0 <= j -> x * 2 ^ n <= y -> y <= 2 ^ (j + n) -> x <= 2 ^ j.
Proof.
  intros N J L U. rewrite Z.pow_add_r in U by lia.
  pose proof (pow2_pos n N). nia.
Qed.

Lemma shr_1_bound (mrs : shr_record) :
  0 <= shr_m mrs -> 0 <= shr_m (shr_1 mrs) /\ 2 * shr_m (shr_1 mrs) <= shr_m mrs.
Proof.
  destruct mrs as [m r s]. destruct m as [|[p|p|]|[p|p|]]; simpl; lia.
Qed.

Lemma iter_shr_1_bound (p : positive) (mrs : shr_record) :
  0 <= shr_m mrs ->
  0 <= shr_m (iter_pos shr_1 p mrs)
  /\ shr_m (iter_pos shr_1 p mrs) * 2 ^ Zpos p <= shr_m mrs.
Proof.
  revert mrs. induction p as [p IH|p IH|]; intros mrs H; cbn [iter_pos].
  - destruct (shr_1_bound mrs H) as [H1 B1].
    destruct (IH _ H1) as [H2 B2]. destruct (IH _ H2) as [H3 B3].
    split; [assumption|].
    replace (Zpos p~1) with (Zpos p + Zpos p + 1) by lia.
    rewrite !Z.pow_add_r by lia. pose proof (pow2_pos (Zpos p) ltac:(lia)).
    change (2 ^ 1) with 2. nia.
  - destruct (IH _ H) as [H2 B2]. destruct (IH _ H2) as [H3 B3].
    split; [assumption|].
    replace (Zpos p~0) with (Zpos p + Zpos p) by lia.
    rewrite !Z.pow_add_r by lia. pose proof (pow2_pos (Zpos p) ltac:(lia)). nia.
  - destruct (shr_1_bound mrs H) as [H1 B1]. split; [assumption|].
    change (2 ^ 1) with 2. lia.
Qed.

Lemma shr_m_of_loc (m : Z) (l : location) : shr_m (shr_record_of_loc m l) = m.
Proof. destruct l as [|[]]; reflexivity. Qed.

(** [shr_fexp] keeps the mantissa or shifts it right: the exponent becomes
    the larger of [e] and [fexp (Zdigits2 m + e)], and the value does not
    grow. *)
Lemma shr_fexp_bound (m e : Z) (l : location) (mrs : shr_record) (e' : Z) :
  0 <= m ->
  shr_fexp prec emax m e l = (mrs, e') ->
  0 <= shr_m mrs
  /\ e <= e'
  /\ e' = Z.max e (fexp prec emax (Zdigits2 m + e))
  /\ shr_m mrs * 2 ^ (e' - e) <= m.
Proof.
  intros M. unfold shr_fexp, shr.
  destruct (fexp prec emax (Zdigits2 m + e) - e) as [|p|p] eqn:N; intros H;
    injection H as <- <-; rewrite ?shr_m_of_loc.
  - replace (e - e) with 0 by lia. change (2 ^ 0) with 1. lia.
  - destruct (iter_shr_1_bound p (shr_record_of_loc m l)) as [H1 H2];
      [rewrite shr_m_of_loc; assumption|].
    rewrite shr_m_of_loc in H2.
    replace (e + Zpos p - e) with (Zpos p) by lia. lia.
  - replace (e - e) with 0 by lia. change (2 ^ 0) with 1. lia.
Qed.

Lemma round_nearest_even_bound (m : Z) (l : location) :
  m <= round_nearest_even m l <= m + 1.
Proof.
  destruct l as [|[]]; simpl; try lia. destruct (Z.even m); lia.
Qed.

Lemma fexp_le (x k : Z) : x <= k + 53 -> -1074 <= k -> fexp prec emax x <= k.
Proof. unfold fexp, SpecFloat.emin, prec, emax. lia. Qed.

(** A value below [2^k] is rounded to zero or to a finite number that is
    at most [2^k]. *)
Lemma binary_round_aux_bound (mx ex : Z) (lx : location) (k : Z) :
  0 <= mx < 2 ^ (k - ex) -> ex <= k -> -1074 <= k <= 1000 -> ex <= 971 ->
  binary_round_aux prec emax false mx ex lx = S754_zero false
  \/ exists m e,
       binary_round_aux prec emax false mx ex lx = S754_finite false m e
       /\ e <= k /\ Zpos m <= 2 ^ (k - e).
Proof.
  intros [M U] K R X. unfold binary_round_aux.
  destruct (shr_fexp prec emax mx ex lx) as [mrs1 e1] eqn:S1.
  destruct (shr_fexp_bound _ _ _ _ _ M S1) as (P1 & L1 & E1 & B1).
  assert (D1 : Zdigits2 mx <= k - ex) by (apply Zdigits2_le; lia).
  pose proof (fexp_le (Zdigits2 mx + ex) k ltac:(lia) ltac:(lia)) as F1.
  pose proof (fexp_le (Zdigits2 mx + ex) 971 ltac:(lia) ltac:(lia)) as G1.
  assert (K1 : e1 <= k) by lia.
  assert (U1 : shr_m mrs1 < 2 ^ (k - e1)).
  { apply (lt_pow2_shift _ mx _ (e1 - ex)); try lia.
    replace (k - e1 + (e1 - ex)) with (k - ex) by lia. assumption. }
  pose proof (round_nearest_even_bound (shr_m mrs1) (loc_of_shr_record mrs1)) as RN.
  set (m1 := round_nearest_even (shr_m mrs1) (loc_of_shr_record mrs1)) in *.
  destruct (shr_fexp prec emax m1 e1 loc_Exact) as [mrs2 e2] eqn:S2.
  assert (M1 : 0 <= m1) by lia.
  destruct (shr_fexp_bound _ _ _ _ _ M1 S2) as (P2 & L2 & E2 & B2).
  assert (D2 : Zdigits2 m1 <= k - e1 + 1).
  { apply Zdigits2_le; [lia|]. rewrite Z.pow_add_r by lia. change (2 ^ 1) with 2. lia. }
  pose proof (fexp_le (Zdigits2 m1 + e1) k ltac:(lia) ltac:(lia)) as F2.
  pose proof (fexp_le (Zdigits2 m1 + e1) 971 ltac:(lia) ltac:(lia)) as G2.
  assert (K2 : e2 <= k) by lia.
  assert (U2 : shr_m mrs2 <= 2 ^ (k - e2)).
  { apply (le_pow2_shift _ m1 _ (e2 - e1)); try lia.
    replace (k - e2 + (e2 - e1)) with (k - e1) by lia. lia. }
  destruct (shr_m mrs2) as [|m|m]; [left; reflexivity | | lia].
  right. exists m, e2.
  replace (e2 <=? emax - prec) with true
    by (symmetry; apply Z.leb_le; unfold emax, prec; lia).
  auto.
Qed.

(** ** Dividing a direction by [22.5] *)

Lemma Prim2SF_22_5 : Prim2SF 22.5 = S754_finite false m45 (-48).
Proof. reflexivity. Qed.

Lemma Prim2SF_360 : Prim2SF 360 = S754_finite false m45 (-44).
Proof. reflexivity. Qed.

Lemma valid_finite (s : bool) (m : positive) (e : Z) :
  valid_binary (S754_finite s m e) = true ->
  e = fexp prec emax (Zdigits2 (Zpos m) + e) /\ Zdigits2 (Zpos m) <= 53 /\ -1074 <= e.
Proof.
  unfold SpecFloat.valid_binary, bounded, canonical_mantissa.
  rewrite andb_true_iff, Z.eqb_eq. intros [C _].
  change (Zpos (digits2_pos m)) with (Zdigits2 (Zpos m)) in C.
  unfold fexp, SpecFloat.emin, prec, emax in *. lia.
Qed.

Lemma SFdiv_core_bound (m : positive) (e : Z) :
  Zdigits2 (Zpos m) <= 53 -> -1074 <= e -> e <= -44 ->
  Zpos m < Zpos m45 * 2 ^ (-44 - e) ->
  forall q e' l,
    SFdiv_core_binary prec emax (Zpos m) e (Zpos m45) (-48) = (q, e', l) ->
    0 <= q < 2 ^ (4 - e') /\ e' <= 4.
Proof.
  intros D L U B q e' l. unfold SFdiv_core_binary.
  change (Zdigits2 (Zpos m45)) with 53.
  set (d1 := Zdigits2 (Zpos m)) in *.
  set (e1 := Z.min (fexp prec emax (d1 + e - (53 + -48))) (e - -48)).
  assert (E1 : e1 <= e + 48) by (unfold e1; lia).
  set (s := e - -48 - e1).
  assert (S : 0 <= s) by (unfold s; lia).
  assert (M : match s with
              | Zpos _ => Z.shiftl (Zpos m) s
              | Z0 => Zpos m
              | Zneg _ => 0
              end = Zpos m * 2 ^ s).
  { destruct s as [|p|p] eqn:Es; [change (2 ^ 0) with 1; lia | | lia].
    apply Z.shiftl_mul_pow2. lia. }
  rewrite M.
  pose proof (Z_div_mod (Zpos m * 2 ^ s) (Zpos m45) ltac:(lia)) as DM.
  destruct (Z.div_eucl (Zpos m * 2 ^ s) (Zpos m45)) as [q0 r0].
  intros H. injection H as <- <- <-. destruct DM as [DM R].
  pose proof (pow2_pos s S) as Ps.
  pose proof (pow2_pos (-44 - e) ltac:(lia)) as Pa.
  assert (T : 2 ^ (4 - e1) = 2 ^ (-44 - e) * 2 ^ s).
  { rewrite <- Z.pow_add_r by lia. f_equal. unfold s. lia. }
  rewrite T. split; [|lia]. split; nia.
Qed.

(** The quotient of a positive float below [360] by [22.5] is zero or a
    finite float that is at most [16 = 2^4]. *)
Lemma SFdiv_22_5_bound (m : positive) (e : Z) :
  valid_binary (S754_finite false m e) = true ->
  e <= -44 -> Zpos m < Zpos m45 * 2 ^ (-44 - e) ->
  SF64div (S754_finite false m e) (S754_finite false m45 (-48)) = S754_zero false
  \/ exists m' e',
       SF64div (S754_finite false m e) (S754_finite false m45 (-48))
       = S754_finite false m' e'
       /\ e' <= 4 /\ Zpos m' <= 2 ^ (4 - e').
Proof.
  intros V U B. destruct (valid_finite _ _ _ V) as (_ & D & L).
  unfold SF64div, SFdiv.
  destruct (SFdiv_core_binary prec emax (Zpos m) e (Zpos m45) (-48))
    as [[q e'] l] eqn:C.
  destruct (SFdiv_core_bound m e D L U B q e' l C) as [Q E].
  cbn [xorb]. apply binary_round_aux_bound; lia.
Qed.

(** The floats from [0] to [360]: a zero, [360] itself, or a positive
    finite float below [360]. *)
Lemma degrees_shape (d : float) :
  (0 <=? d)%float = true -> (d <=? 360)%float = true ->
  (exists s, Prim2SF d = S754_zero s)
  \/ d = 360%float
  \/ exists m e, Prim2SF d = S754_finite false m e
                 /\ e <= -44 /\ Zpos m < Zpos m45 * 2 ^ (-44 - e).
Proof.
  rewrite !leb_spec, Prim2SF_360. change (Prim2SF 0) with (S754_zero false).
  pose proof (Prim2SF_valid d) as V.
  destruct (Prim2SF d) as [s|s| |s m e] eqn:E.
  - intros _ _. left. exists s. reflexivity.
  - destruct s; cbn; discriminate.
  - cbn. discriminate.
  - intros H0 H1. right. destruct s; [cbn in H0; discriminate|].
    destruct (valid_finite _ _ _ V) as (_ & D & L).
    pose proof (Zdigits2_gt m) as G.
    assert (G53 : Zpos m < 2 ^ 53).
    { eapply Z.lt_le_trans; [exact G|]. apply Z.pow_le_mono_r; lia. }
    unfold SFleb, SFcompare in H1.
    destruct (Z.compare_spec e (-44)) as [Ee|Ee|Ee]; [| |discriminate].
    + subst e. pose proof (Pos.compare_spec m m45) as CS.
      unfold Pos.compare in CS.
      destruct CS as [Em|Em|Em]; [| |discriminate].
      * left. subst m. rewrite <- Prim2SF_360 in E. exact (Prim2SF_inj _ _ E).
      * apply Pos2Z.pos_lt_pos in Em.
        right. exists m, (-44). split; [reflexivity|]. split; [lia|].
        change (2 ^ (-44 - -44)) with 1. lia.
    + right. exists m, e. split; [reflexivity|]. split; [lia|].
      assert (2 ^ 1 <= 2 ^ (-44 - e)) by (apply Z.pow_le_mono_r; lia).
      change (2 ^ 1) with 2 in H. change (2 ^ 53) with 9007199254740992 in G53.
      unfold m45. lia.
Qed.

Lemma zero_cases (f : float) (s : bool) :
  Prim2SF f = S754_zero s -> f = 0%float \/ f = (-0)%float.
Proof.
  intros E. rewrite <- (SF2Prim_Prim2SF f), E. destruct s; auto.
Qed.

(** [round(d/22.5)] is one of the integers from [0] to [16] (or the
    negative zero). *)
Lemma py_round_bucket (d : float) :
  (0 <=? d)%float = true -> (d <=? 360)%float = true ->
  py_round (d / 22.5) = (-0)%float
  \/ exists r, 0 <= r <= 16
               /\ py_round (d / 22.5) = SF2Prim (binary_normalize prec emax r 0 false).
Proof.
  intros H0 H1.
  destruct (degrees_shape d H0 H1) as [[s E] | [-> | (m & e & E & U & B)]].
  - assert (Q : Prim2SF (d / 22.5) = S754_zero s).
    { rewrite div_spec, E, Prim2SF_22_5. destruct s; reflexivity. }
    unfold py_round. rewrite Q.
    destruct (zero_cases _ _ Q) as [Z|Z]; [right; exists 0 | left]; auto.
    split; [lia | exact Z].
  - right. exists 16. split; [lia | vm_compute; reflexivity].
  - pose proof (Prim2SF_valid d) as V. rewrite E in V.
    pose proof (Prim2SF_valid (d / 22.5)) as VQ.
    assert (Q : Prim2SF (d / 22.5)
                = SF64div (S754_finite false m e) (S754_finite false m45 (-48))).
    { rewrite div_spec, E, Prim2SF_22_5. reflexivity. }
    right.
    destruct (SFdiv_22_5_bound m e V U B) as [Z | (m' & e' & R & Le & Lm)];
      rewrite Q in VQ.
    + rewrite Z in Q. exists 0. split; [lia|].
      unfold py_round. rewrite Q.
      rewrite <- (SF2Prim_Prim2SF (d / 22.5)), Q. reflexivity.
    + rewrite R in Q, VQ.
      destruct (valid_finite _ _ _ VQ) as (C & D' & L').
      assert (D5 : Zdigits2 (Zpos m') <= 5 - e').
      { apply Zdigits2_le; [lia|]. split; [lia|].
        replace (5 - e') with (4 - e' + 1) by lia.
        rewrite Z.pow_add_r by lia. change (2 ^ 1) with 2. lia. }
      assert (N : e' <= -48).
      { unfold fexp, SpecFloat.emin, prec, emax in C. lia. }
      unfold py_round. rewrite Q.
      replace (0 <=? e') with false by (symmetry; apply Z.leb_gt; lia).
      set (q := Z.shiftl (Zpos m') e').
      assert (Eq : q = Zpos m' / 2 ^ (- e')).
      { unfold q. rewrite <- (Z.opp_involutive e') at 1.
        rewrite Z.shiftl_opp_r. apply Z.shiftr_div_pow2. lia. }
      pose proof (pow2_pos (- e') ltac:(lia)) as Pe.
      assert (T : 2 ^ (4 - e') = 16 * 2 ^ (- e')).
      { replace (4 - e') with (4 + - e') by lia.
        rewrite Z.pow_add_r by lia. reflexivity. }
      assert (Q0 : 0 <= q) by (rewrite Eq; apply Z.div_pos; lia).
      assert (Q16 : q <= 16).
      { rewrite Eq. apply Z.div_le_upper_bound; lia. }
      exists (if Z.testbit (Zpos m') (- e' - 1) then q + 1 else q).
      split; [|reflexivity].
      destruct (Z.testbit (Zpos m') (- e' - 1)) eqn:Bit; [|lia].
      assert (q <> 16); [|lia].
      intros E16.
      assert (Zpos m' = 2 ^ (4 - e')).
      { rewrite Eq in E16.
        pose proof (Z.mul_div_le (Zpos m') (2 ^ (- e')) Pe). rewrite E16 in H. lia. }
      rewrite H in Bit. rewrite Z.pow2_bits_false in Bit by lia. discriminate.
Qed.

(** ** [direction] *)

Lemma small_cases (r : Z) :
  0 <= r <= 16 ->
  r = 0 \/ r = 1 \/ r = 2 \/ r = 3 \/ r = 4 \/ r = 5 \/ r = 6 \/ r = 7 \/ r = 8
  \/ r = 9 \/ r = 10 \/ r = 11 \/ r = 12 \/ r = 13 \/ r = 14 \/ r = 15 \/ r = 16.
Proof. lia. Qed.

(** What the search of [compass()] finds for each bucket. *)
Lemma compass_of_bucket (v : float) :
  v = (-0)%float \/ (exists r, 0 <= r <= 16 /\ v = index r) ->
  exists name,
    (if (22.5 * v =? 360)%float then Some "N"
     else match direction.find_name (22.5 * v) direction.compass_dirs with
          | Some name => Some name
          | None => None
          end) = Some name
    /\ names_bucket (22.5 * v) name.
Proof.
  intros [->|(r & B & ->)].
  - exists "N". split; [vm_compute; reflexivity|].
    right. split; [vm_compute; reflexivity|].
    exists 0%float. split; vm_compute; reflexivity.
  - pose proof (small_cases r B) as C. each_case C.
    17: { exists "N". split; [vm_compute; reflexivity|].
          left. split; [vm_compute|]; reflexivity. }
    all: eexists; (split; [vm_compute; reflexivity|]);
      right; (split; [vm_compute; reflexivity|]);
      eexists; split; vm_compute; reflexivity.
Qed.

Lemma degrees_accepted (d : float) :
  (0 <=? d)%float = true -> (d <=? 360)%float = true ->
  (d <? 0)%float = false /\ (360 <? d)%float = false.
Proof.
  intros H0 H1. rewrite !ltb_spec, Prim2SF_360.
  change (Prim2SF 0) with (S754_zero false).
  destruct (degrees_shape d H0 H1) as [[s E] | [-> | (m & e & E & U & B)]].
  - rewrite E. split; reflexivity.
  - split; vm_compute; reflexivity.
  - rewrite E. split; [reflexivity|].
    unfold SFltb, SFcompare.
    destruct (Z.compare_spec (-44) e) as [Ee|Ee|Ee]; [|lia|reflexivity].
    subst e. change (2 ^ (-44 - -44)) with 1 in B.
    assert (G : (m45 ?= m)%positive = Gt).
    { apply Pos.compare_gt_iff. unfold Pos.lt. rewrite Pos2Z.inj_compare.
      apply Z.compare_lt_iff. lia. }
    unfold Pos.compare in G. rewrite G. reflexivity.
Qed.

(** Float equality with a finite number that is not zero is equality. *)
Lemma eqb_finite (x c : float) (s : bool) (m : positive) (e : Z) :
  Prim2SF c = S754_finite s m e -> (x =? c)%float = true -> x = c.
Proof.
  intros C. rewrite eqb_spec, C. intros H. apply Prim2SF_inj. rewrite C.
  unfold SFeqb, SFcompare in H.
  destruct (Prim2SF x) as [sx|sx| |sx mx ex];
    try discriminate; try (destruct s; discriminate);
    try (destruct sx; discriminate).
  destruct sx, s; try discriminate;
    destruct (Z.compare_spec ex e) as [Ee|Ee|Ee]; try discriminate; subst ex;
    pose proof (Pos.compare_spec mx m) as CS; unfold Pos.compare in CS;
    destruct CS as [Em|Em|Em]; try discriminate; subst; reflexivity.
Qed.

Lemma compass_numeric (d : float) :
  (0 <=? d)%float = true -> (d <=? 360)%float = true ->
  let t := {| direction._compass := None; direction._degrees := d |} in
  exists name,
    fst (direction.compass t) = Some name
    /\ snd (direction.compass t)
       = {| direction._compass := Some name; direction._degrees := d |}
    /\ names_bucket (22.5 * py_round (d / 22.5)) name.
Proof.
  intros H0 H1 t.
  destruct (compass_of_bucket (py_round (d / 22.5)) (py_round_bucket d H0 H1))
    as (name & F & NB).
  exists name. unfold direction.compass, t.
  cbn [falsy direction._compass direction._degrees fst snd].
  destruct (direction.find_name (22.5 * py_round (d / 22.5)) direction.compass_dirs);
    rewrite F; auto.
Qed.

Lemma compass_midpoint (d : float) (k : Z) :
  0 <= k <= 15 ->
  (d / 22.5 =? midpoint k)%float = true ->
  fst (direction.compass {| direction._compass := None; direction._degrees := d |})
  = Some (point (k + 1)).
Proof.
  intros B H. unfold direction.compass.
  cbn [falsy direction._compass direction._degrees fst].
  assert (C : 0 <= k <= 16) by lia. apply small_cases in C. each_case C.
  17: lia.
  all: match type of H with
       | (_ =? ?c)%float = true =>
           assert (E : (d / 22.5)%float = c)
             by (eapply eqb_finite; [vm_compute; reflexivity | exact H])
       end;
       rewrite E; vm_compute; reflexivity.
Qed.

Lemma compass_named (name : string) (deg : float) :
  direction.lookup name direction.compass_dirs = Some deg ->
  let t := {| direction._compass := Some name; direction._degrees := deg |} in
  direction.__init__ (PyStr name) = Ok t
  /\ direction.value t = deg
  /\ direction.compass t = (Some name, t).
Proof.
  intros L t. unfold direction.__init__, direction.has_key. rewrite L.
  split; [reflexivity|]. split; [reflexivity|].
  unfold direction.compass. cbn [falsy direction._compass t].
  destruct (String.eqb_spec name "") as [->|N]; [discriminate | reflexivity].
Qed.

(** ** [direction]: the order in which the table is searched *)

Lemma eqb_zero (b : float) :
  (0 =? b)%float = true -> b = 0%float \/ b = (-0)%float.
Proof.
  rewrite eqb_spec. change (Prim2SF 0) with (S754_zero false).
  destruct (Prim2SF b) as [s|s| |s m e] eqn:E; unfold SFeqb, SFcompare.
  - intros _. exact (zero_cases _ _ E).
  - destruct s; discriminate.
  - discriminate.
  - destruct s; discriminate.
Qed.

Lemma eqb_finite_l (c x : float) :
  match Prim2SF c with S754_finite _ _ _ => true | _ => false end = true ->
  (c =? x)%float = true -> x = c.
Proof.
  rewrite eqb_spec. destruct (Prim2SF c) as [| | |s m e] eqn:C; try discriminate.
  intros _ H. apply Prim2SF_inj. rewrite C.
  unfold SFeqb, SFcompare in H.
  destruct (Prim2SF x) as [sx|sx| |sx mx ex];
    try discriminate; try (destruct s; discriminate);
    try (destruct sx; destruct s; discriminate).
  destruct s, sx; try discriminate;
    destruct (Z.compare_spec e ex) as [Ee|Ee|Ee]; try discriminate; subst ex;
    pose proof (Pos.compare_spec m mx) as CS; unfold Pos.compare in CS;
    destruct CS as [Em|Em|Em]; try discriminate; subst; reflexivity.
Qed.

(** The float an entry of the table is equal to. *)
Lemma table_match (n : string) (d b : float) :
  In (n, d) direction.compass_dirs -> (d =? b)%float = true ->
  b = d \/ (n = "N" /\ b = (-0)%float).
Proof.
  intros I E. in_table I.
  1: { apply eqb_zero in E. destruct E as [->| ->]; auto. }
  all: left; apply eqb_finite_l; [reflexivity | assumption].
Qed.

(** No two entries of the table have equal degrees. *)
Lemma table_unique (n1 n2 : string) (d1 d2 b : float) :
  In (n1, d1) direction.compass_dirs -> In (n2, d2) direction.compass_dirs ->
  (d1 =? b)%float = true -> (d2 =? b)%float = true -> n1 = n2.
Proof.
  intros I1 I2 E1 E2.
  destruct (table_match _ _ _ I1 E1) as [->|[En ->]]; clear E1;
    in_table I1; try discriminate En; in_table I2;
    first [reflexivity | vm_compute in E2; discriminate].
Qed.

Lemma find_name_some (b : float) (l : list (string * float)) (n : string) :
  direction.find_name b l = Some n ->
  exists d, In (n, d) l /\ (d =? b)%float = true.
Proof.
  induction l as [|[n0 d0] r IH]; cbn [direction.find_name]; [discriminate|].
  destruct (d0 =? b)%float eqn:E.
  - intros H. injection H as <-. exists d0. split; [left; reflexivity | assumption].
  - intros H. destruct (IH H) as (d & I & Ed). exists d. split; [right|]; assumption.
Qed.

Lemma find_name_none (b : float) (l : list (string * float)) :
  direction.find_name b l = None ->
  forall n d, In (n, d) l -> (d =? b)%float = false.
Proof.
  induction l as [|[n0 d0] r IH]; cbn [direction.find_name]; [contradiction|].
  destruct (d0 =? b)%float eqn:E; [discriminate|].
  intros H n d [I|I]; [injection I as <- <-; assumption | exact (IH H n d I)].
Qed.

(** X15: The [for] loop goes through the dictionary in an order that Python does
    not fix: whatever the order of the entries, the search finds the same
    name. *)
Lemma find_name_any_order (b : float) (l : list (string * float)) :
  (forall x, In x l <-> In x direction.compass_dirs) ->
  direction.find_name b l = direction.find_name b direction.compass_dirs.
Proof.
  intros P.
  destruct (direction.find_name b l) as [n|] eqn:A;
    destruct (direction.find_name b direction.compass_dirs) as [n'|] eqn:B.
  - apply find_name_some in A, B.
    destruct A as (d & I & E). destruct B as (d' & I' & E').
    apply P in I. f_equal. exact (table_unique _ _ _ _ _ I I' E E').
  - apply find_name_some in A. destruct A as (d & I & E). apply P in I.
    rewrite (find_name_none _ _ B _ _ I) in E. discriminate.
  - apply find_name_some in B. destruct B as (d & I & E). apply P in I.
    rewrite (find_name_none _ _ A _ _ I) in E. discriminate.
  - reflexivity.
Qed.

(** C6: a direction built from a numeric token [d] with [0 <= d <= 360]
    is accepted, and [compass()] returns (and stores) the name of the
    bucket [22.5 * round(d/22.5)]: [N] when the bucket is [360], the name
    whose degrees in the table equal the bucket otherwise; when [d/22.5] is
    the midpoint [k + 0.5] the name is the one of index [k + 1]; a direction
    built from a name returns that name and its degrees in the table.
    [direction("NE")] has value [45.0] and compass [NE], and
    [direction("25").compass()] is [NNE]. *)
Theorem compass_of_direction :
  (forall (tok : pyval) (d : float),
      direction.has_key tok = None -> py_float tok = Ok d ->
      (0 <=? d)%float = true -> (d <=? 360)%float = true ->
      let t := {| direction._compass := None; direction._degrees := d |} in
      direction.__init__ tok = Ok t
      /\ exists name,
           fst (direction.compass t) = Some name
           /\ snd (direction.compass t)
              = {| direction._compass := Some name; direction._degrees := d |}
           /\ names_bucket (22.5 * py_round (d / 22.5)) name)
  /\ (forall (d : float) (k : Z),
        0 <= k <= 15 -> (d / 22.5 =? midpoint k)%float = true ->
        py_round (d / 22.5) = index (k + 1)
        /\ fst (direction.compass
                  {| direction._compass := None; direction._degrees := d |})
           = Some (point (k + 1)))
  /\ (forall (name : string) (deg : float),
        direction.lookup name direction.compass_dirs = Some deg ->
        let t := {| direction._compass := Some name; direction._degrees := deg |} in
        direction.__init__ (PyStr name) = Ok t
        /\ direction.value t = deg
        /\ direction.compass t = (Some name, t))
  /\ (t <- direction.__init__ (PyStr "NE") ;;
      Ok (direction.value t, fst (direction.compass t)))
     = Ok (45.0%float, Some "NE")
  /\ (t <- direction.__init__ (PyStr "25") ;; Ok (fst (direction.compass t)))
     = Ok (Some "NNE").
Proof.
  split; [|split; [|split; [|split; vm_compute; reflexivity]]].
  - intros tok d K F H0 H1 t. split.
    + unfold direction.__init__. rewrite K, F. cbn [bind].
      destruct (degrees_accepted d H0 H1) as [-> ->]. reflexivity.
    + exact (compass_numeric d H0 H1).
  - intros d k B H. split; [|exact (compass_midpoint d k B H)].
    assert (C : 0 <= k <= 16) by lia. apply small_cases in C. each_case C.
    17: lia.
    all: match type of H with
         | (_ =? ?c)%float = true =>
             assert (E : (d / 22.5)%float = c)
               by (eapply eqb_finite; [vm_compute; reflexivity | exact H])
         end;
         rewrite E; vm_compute; reflexivity.
  - exact compass_named.
Qed.

Lemma compass_of_direction_witness :
  exists name,
    fst (direction.compass {| direction._compass := None; direction._degrees := 25 |})
    = Some name
    /\ names_bucket (22.5 * py_round (25 / 22.5)) name.
Proof.
  destruct (proj1 compass_of_direction (PyStr "25") 25%float) as [_ (name & F & _ & NB)];
    try (vm_compute; reflexivity).
  exists name. auto.
Defined.


(** * Further properties of the classes *)

(** ** What a constructed instance holds *)

Lemma temperature_init_units (v : pyval) (u0 : option string) (t : temperature.t) :
  temperature.__init__ v u0 = Ok t ->
  temperature._units t = upper (match u0 with Some u => u | None => "C" end)
  /\ mem (temperature._units t) temperature.legal_units = true.
Proof.
  unfold temperature.__init__. intros H.
  apply bind_ok in H. destruct H as (U & C & H).
  apply check_units_ok in C. destruct C as [EU M].
  assert (E : temperature._units t = U).
  { destruct (py_float v) as [f|[]]; try discriminate.
    - injection H as <-. reflexivity.
    - destruct v as [z|f|s]; try discriminate.
      destruct s as [|a r]; [injection H as <-; reflexivity|].
      destruct (Ascii.eqb_spec a "M"%char) as [->|N].
      + apply bind_ok in H. destruct H as (f & _ & H).
        injection H as <-. reflexivity.
      + destruct a as [[] [] [] [] [] [] [] []];
          try (injection H as <-; reflexivity). congruence. }
  rewrite E. subst U. auto.
Qed.

Lemma resolved_units (legal : list string) (d U : string) (u0 : option string) :
  (if falsy u0 then Ok d else check_units legal (given u0)) = Ok U ->
  (falsy u0 = true /\ U = d) \/ (falsy u0 = false /\ U = upper (given u0)).
Proof.
  destruct (falsy u0).
  - intros H. injection H as <-. auto.
  - intros H. apply check_units_ok in H. right. tauto.
Qed.

(** X1: The stored unit of a constructed instance is a member of the legal
    units of its class: the upper-case form of the unit that was given, or
    the default of the class ([C], [MB]; [MPS] and [M], which also stand in
    for an empty unit string). *)
Theorem constructed_units_legal :
  (forall v u0 t,
      temperature.__init__ v u0 = Ok t ->
      mem (temperature._units t) temperature.legal_units = true
      /\ temperature._units t = upper (match u0 with Some u => u | None => "C" end))
  /\ (forall v u0 t,
        pressure.__init__ v u0 = Ok t ->
        mem (pressure._units t) pressure.legal_units = true
        /\ pressure._units t = upper (match u0 with Some u => u | None => "MB" end))
  /\ (forall v u0 g t,
        speed.__init__ v u0 g = Ok t ->
        mem (speed._units t) speed.legal_units = true
        /\ speed._units t = (if falsy u0 then "MPS" else upper (given u0)))
  /\ (forall v u0 g t,
        distance.__init__ v u0 g = Ok t ->
        mem (distance._units t) distance.legal_units = true
        /\ distance._units t = (if falsy u0 then "M" else upper (given u0))).
Proof.
  split; [|split; [|split]].
  - intros v u0 t I. destruct (temperature_init_units _ _ _ I). auto.
  - intros v u0 t I. split; [exact (pressure_init_units _ _ _ I)|].
    unfold pressure.__init__ in I.
    apply bind_ok in I. destruct I as (U & C & I).
    apply bind_ok in I. destruct I as (f & _ & I). injection I as <-.
    apply check_units_ok in C. tauto.
  - intros v u0 g t I. split; [exact (speed_init_units _ _ _ _ I)|].
    unfold speed.__init__ in I.
    apply bind_ok in I. destruct I as (U & C & I).
    destruct (bad_gtlt speed.legal_gtlt g); [discriminate|].
    apply bind_ok in I. destruct I as (f & _ & I). injection I as <-. simpl.
    destruct (resolved_units _ _ _ _ C) as [[-> ->]|[-> ->]]; reflexivity.
  - intros v u0 g t I. split; [exact (distance_init_units _ _ _ _ I)|].
    unfold distance.__init__ in I.
    apply bind_ok in I. destruct I as (U & C & I).
    destruct (distance.strip_prefix v g) as [v' g'].
    destruct (bad_gtlt distance.legal_gtlt g'); [discriminate|].
    apply bind_ok in I. destruct I as ([[f n] d] & _ & I). injection I as <-. simpl.
    destruct (resolved_units _ _ _ _ C) as [[-> ->]|[-> ->]]; reflexivity.
Qed.

Lemma constructed_units_legal_witness :
  mem "KMH" speed.legal_units = true /\ "KMH" = upper "kmh".
Proof.
  exact (proj1 (proj2 (proj2 constructed_units_legal))
           (PyStr "10") (Some "kmh") None
           {| speed._units := "KMH"; speed._gtlt := None; speed._value := 10 |}
           ltac:(vm_compute; reflexivity)).
Defined.

Lemma bad_gtlt_false (g : option string) :
  bad_gtlt [">"; "<"] g = false ->
  g = None \/ g = Some "" \/ g = Some ">" \/ g = Some "<".
Proof.
  destruct g as [s|]; [|auto]. unfold bad_gtlt, mem. cbn [existsb].
  destruct (String.eqb_spec s "") as [->|_]; [auto|].
  destruct (String.eqb_spec s ">") as [->|_]; [auto|].
  destruct (String.eqb_spec s "<") as [->|_]; [auto|].
  discriminate.
Qed.

(** X2: The qualifier of a constructed speed is the [gtlt] argument and the one
    of a constructed distance is the argument or what the prefix of the
    token decided; in both it is absent, empty, [>] or [<], so that
    [string()] puts ["greater than "] or ["less than "] in front exactly for
    [>] and [<]. *)
Theorem constructed_gtlt_legal :
  (forall v u0 g t,
      speed.__init__ v u0 g = Ok t ->
      speed._gtlt t = g
      /\ (g = None \/ g = Some "" \/ g = Some ">" \/ g = Some "<"))
  /\ (forall v u0 g t,
        distance.__init__ v u0 g = Ok t ->
        distance._gtlt t = snd (distance.strip_prefix v g)
        /\ (distance._gtlt t = None \/ distance._gtlt t = Some ""
            \/ distance._gtlt t = Some ">" \/ distance._gtlt t = Some "<")).
Proof.
  split.
  - intros v u0 g t I. unfold speed.__init__ in I.
    apply bind_ok in I. destruct I as (U & _ & I).
    destruct (bad_gtlt speed.legal_gtlt g) eqn:B; [discriminate|].
    apply bind_ok in I. destruct I as (f & _ & I). injection I as <-.
    split; [reflexivity | exact (bad_gtlt_false _ B)].
  - intros v u0 g t I. unfold distance.__init__ in I.
    apply bind_ok in I. destruct I as (U & _ & I).
    destruct (distance.strip_prefix v g) as [v' g'].
    destruct (bad_gtlt distance.legal_gtlt g') eqn:B; [discriminate|].
    apply bind_ok in I. destruct I as ([[f n] d] & _ & I). injection I as <-.
    split; [reflexivity | exact (bad_gtlt_false _ B)].
Qed.

Lemma constructed_gtlt_legal_witness :
  Some "<" = snd (distance.strip_prefix (PyStr "M1/4") (Some "bogus")).
Proof.
  exact (proj1 (proj2 constructed_gtlt_legal
           (PyStr "M1/4") (Some "SM") (Some "bogus")
           {| distance._units := "SM"; distance._gtlt := Some "<";
              distance._value := 0.25; distance._num := Some 1;
              distance._den := Some 4 |}
           ltac:(vm_compute; reflexivity))).
Defined.

(** ** The strings [FRACTION_RE] matches *)

Lemma span_all (p : ascii -> bool) (ds : list ascii) :
  Forall (fun c => p c = true) ds -> span p ds = (ds, []).
Proof.
  induction 1 as [|c r H F IH]; cbn [span]; [reflexivity|].
  rewrite H, IH. reflexivity.
Qed.

Lemma span_app (p : ascii -> bool) (ds : list ascii) (c : ascii) (r : list ascii) :
  Forall (fun c => p c = true) ds -> p c = false ->
  span p (ds ++ c :: r)%list = (ds, c :: r).
Proof.
  intros F N. induction F as [|d ds' H F IH]; cbn [span app].
  - rewrite N. reflexivity.
  - rewrite H, IH. reflexivity.
Qed.

Lemma span_tail (ds tail : list ascii) :
  Forall (fun c => isdigit c = true) ds -> at_end tail = true ->
  span isdigit (ds ++ tail)%list = (ds, tail).
Proof.
  intros F E. destruct tail as [|c [|c' r]]; try discriminate.
  - rewrite app_nil_r. apply span_all. assumption.
  - apply span_app; [assumption|]. cbn [at_end] in E.
    apply Ascii.eqb_eq in E. subst c. reflexivity.
Qed.

Lemma lstrip_app (ws : list ascii) (c : ascii) (r : list ascii) :
  Forall (fun c => isspace c = true) ws -> isspace c = false ->
  lstrip (ws ++ c :: r)%list = c :: r.
Proof.
  intros F N. induction F as [|w ws' H F IH]; cbn [lstrip app].
  - rewrite N. reflexivity.
  - rewrite H. assumption.
Qed.

Lemma lstrip_split (l : list ascii) :
  exists ws, Forall (fun c => isspace c = true) ws /\ l = (ws ++ lstrip l)%list.
Proof.
  induction l as [|c r (ws & F & E)]; cbn [lstrip].
  - exists []. split; [constructor | reflexivity].
  - destruct (isspace c) eqn:S.
    + exists (c :: ws). split; [constructor; assumption|]. cbn [app]. congruence.
    + exists []. split; [constructor | reflexivity].
Qed.

Lemma digit_not_space (c : ascii) : isdigit c = true -> isspace c = false.
Proof.
  destruct c as [[] [] [] [] [] [] [] []]; vm_compute; intros; congruence.
Qed.

Lemma match_num_den_complete (int : option (list ascii)) (num den tail : list ascii) :
  num <> [] -> den <> [] ->
  Forall (fun c => isdigit c = true) num ->
  Forall (fun c => isdigit c = true) den ->
  at_end tail = true ->
  match_num_den int (num ++ "/"%char :: den ++ tail)%list
  = Some {| g_int := int; g_num := num; g_den := den |}.
Proof.
  intros Nn Nd Fn Fd E. unfold match_num_den.
  rewrite (span_app isdigit num "/"%char _ Fn eq_refl).
  destruct num as [|n0 num']; [contradiction|].
  rewrite (span_tail den tail Fd E).
  destruct den as [|d0 den']; [contradiction|].
  rewrite E. reflexivity.
Qed.

(** X3: [FRACTION_RE] matches exactly the strings made of a run of digits, [/]
    and a run of digits, optionally preceded by a run of digits and
    whitespace, and optionally followed by one newline; the groups are
    those runs of digits. *)
Theorem FRACTION_RE_matches :
  (forall num den tail,
      num <> [] -> den <> [] ->
      Forall (fun c => isdigit c = true) num ->
      Forall (fun c => isdigit c = true) den ->
      at_end tail = true ->
      FRACTION_RE (string_of_list_ascii (num ++ "/"%char :: den ++ tail)%list)
      = Some {| g_int := None; g_num := num; g_den := den |})
  /\ (forall int ws num den tail,
        int <> [] -> ws <> [] -> num <> [] -> den <> [] ->
        Forall (fun c => isdigit c = true) int ->
        Forall (fun c => isspace c = true) ws ->
        Forall (fun c => isdigit c = true) num ->
        Forall (fun c => isdigit c = true) den ->
        at_end tail = true ->
        FRACTION_RE
          (string_of_list_ascii (int ++ ws ++ num ++ "/"%char :: den ++ tail)%list)
        = Some {| g_int := Some int; g_num := num; g_den := den |})
  /\ (forall s df,
        FRACTION_RE s = Some df ->
        g_num df <> [] /\ g_den df <> []
        /\ Forall (fun c => isdigit c = true) (g_num df)
        /\ Forall (fun c => isdigit c = true) (g_den df)
        /\ exists tail,
             at_end tail = true
             /\ match g_int df with
                | None =>
                    list_ascii_of_string s
                    = (g_num df ++ "/"%char :: g_den df ++ tail)%list
                | Some int =>
                    int <> [] /\ Forall (fun c => isdigit c = true) int
                    /\ exists ws,
                         ws <> [] /\ Forall (fun c => isspace c = true) ws
                         /\ list_ascii_of_string s
                            = (int ++ ws ++ g_num df ++ "/"%char :: g_den df ++ tail)%list
                end).
Proof.
  split; [|split].
  - intros num den tail Nn Nd Fn Fd E. unfold FRACTION_RE.
    rewrite list_ascii_of_string_of_list_ascii.
    rewrite (span_app isdigit num "/"%char _ Fn eq_refl).
    destruct num as [|n0 num'] eqn:En; [contradiction|].
    change (isspace "/"%char) with false. cbv iota. rewrite <- En in *.
    apply match_num_den_complete; auto; congruence.
  - intros int ws num den tail Ni Nw Nn Nd Fi Fw Fn Fd E. unfold FRACTION_RE.
    rewrite list_ascii_of_string_of_list_ascii.
    destruct ws as [|w ws']; [contradiction|]. inversion Fw as [|w0 ws0 Hw Fw']; subst.
    cbn [app]. rewrite (span_app isdigit int w _ Fi).
    2:{ destruct (isdigit w) eqn:D; [|reflexivity].
        apply digit_not_space in D. congruence. }
    destruct int as [|i0 int'] eqn:Ei; [contradiction|]. rewrite Hw.
    destruct num as [|n0 num'] eqn:En; [contradiction|].
    inversion Fn as [|n1 num1 Hn Fn']; subst. cbn [app].
    rewrite (lstrip_app ws' n0 _ Fw' (digit_not_space _ Hn)).
    change (n0 :: (num' ++ "/"%char :: den ++ tail)%list)
      with ((n0 :: num') ++ "/"%char :: den ++ tail)%list.
    apply match_num_den_complete; auto; discriminate.
  - intros s df. unfold FRACTION_RE.
    destruct (span isdigit (list_ascii_of_string s)) as [int l1] eqn:S1.
    destruct int as [|i0 int]; [discriminate|].
    destruct l1 as [|c r]; [discriminate|].
    destruct (span_spec _ _ _ _ S1) as [E F].
    assert (MS : forall io l, match_num_den io l = Some df ->
               g_int df = io /\ g_num df <> [] /\ g_den df <> []
               /\ Forall (fun c => isdigit c = true) (g_num df)
               /\ Forall (fun c => isdigit c = true) (g_den df)
               /\ exists tail, at_end tail = true
                    /\ l = (g_num df ++ "/"%char :: g_den df ++ tail)%list).
    { intros io l H. pose proof (match_num_den_spec _ _ _ H) as (I & _ & Fn & Fd & T).
      repeat split; auto.
      - unfold match_num_den in H. destruct (span isdigit l) as [[|n0 n] [|a l1]];
          try discriminate.
        destruct (Ascii.eqb_spec a "/"%char) as [->|N].
        + destruct (span isdigit l1) as [[|d0 d] l2]; try discriminate.
          destruct (at_end l2); [|discriminate]. injection H as <-. discriminate.
        + destruct a as [[] [] [] [] [] [] [] []]; try discriminate. congruence.
      - unfold match_num_den in H. destruct (span isdigit l) as [[|n0 n] [|a l1]];
          try discriminate.
        destruct (Ascii.eqb_spec a "/"%char) as [->|N].
        + destruct (span isdigit l1) as [[|d0 d] l2]; try discriminate.
          destruct (at_end l2); [|discriminate]. injection H as <-. discriminate.
        + destruct a as [[] [] [] [] [] [] [] []]; try discriminate. congruence. }
    destruct (isspace c) eqn:W; intros H; apply MS in H;
      destruct H as (I & Nn & Nd & Fn & Fd & tail & T & L).
    + repeat split; auto. exists tail. split; [assumption|]. rewrite I.
      split; [discriminate|]. split; [assumption|].
      destruct (lstrip_split r) as (ws & Fw & Er).
      exists (c :: ws). split; [discriminate|]. split; [constructor; assumption|].
      rewrite E. cbn [app]. rewrite <- L, <- Er. reflexivity.
    + repeat split; auto. exists tail. split; [assumption|]. rewrite I. exact L.
Qed.

Lemma FRACTION_RE_matches_witness :
  FRACTION_RE "1 3/4"
  = Some {| g_int := Some (list_ascii_of_string "1");
            g_num := list_ascii_of_string "3";
            g_den := list_ascii_of_string "4" |}.
Proof.
  refine (proj1 (proj2 FRACTION_RE_matches)
            (list_ascii_of_string "1") (list_ascii_of_string " ")
            (list_ascii_of_string "3") (list_ascii_of_string "4") []
            _ _ _ _ _ _ _ _ _);
    try discriminate; try reflexivity;
    repeat constructor.
Defined.

(** ** How the constructor of [distance] fails *)

(** [float()] on a string raises nothing but [ValueError]. *)
Lemma float_of_string_exn (s : string) (e : exn) :
  float_of_string s = Raise e -> e = ValueError.
Proof.
  unfold float_of_string.
  destruct (read_sign _) as [neg l1].
  destruct (_ || _); [discriminate|].
  destruct (String.eqb _ "nan"); [discriminate|].
  destruct (span isdigit l1) as [ip l2].
  destruct (match l2 with "."%char :: r => _ | _ => _ end) as [fp l3].
  destruct (ip ++ fp)%list; [congruence|].
  destruct l3 as [|c r]; [discriminate|].
  destruct (is_exp_mark c); [|congruence].
  destruct (read_sign r) as [eneg r1].
  destruct (span isdigit r1) as [[|e0 ed] [|x r2]]; congruence.
Qed.

(** X4: A constructed distance holds a fraction or a plain number, never one
    half of a fraction: either [float()] accepted the token (without its
    prefix) and [_num] and [_den] are both absent, or [float()] refused it,
    [FRACTION_RE] matched it and both are present, with a denominator that
    is not zero. *)
Theorem distance_fraction_presence
    (v : pyval) (u0 g : option string) (t : distance.t) :
  distance.__init__ v u0 g = Ok t ->
  (py_float (fst (distance.strip_prefix v g)) = Ok (distance._value t)
   /\ distance._num t = None /\ distance._den t = None)
  \/ (exists s df,
        fst (distance.strip_prefix v g) = PyStr s
        /\ float_of_string s = Raise ValueError
        /\ FRACTION_RE s = Some df
        /\ distance._num t = Some (int_of_digits (g_num df))
        /\ distance._den t = Some (int_of_digits (g_den df))
        /\ int_of_digits (g_den df) <> 0).
Proof.
  intros I. destruct (distance_init_inv _ _ _ _ I) as [P _].
  destruct (fst (distance.strip_prefix v g)) as [z|f|s] eqn:T.
  - left. unfold distance.parse_value in P.
    destruct (py_float (PyInt z)) as [x|[]]; try discriminate.
    injection P as E1 E2 E3. repeat split; congruence.
  - left. unfold distance.parse_value in P. cbn [py_float] in *.
    injection P as E1 E2 E3. repeat split; congruence.
  - unfold distance.parse_value in P. cbn [py_float] in *.
    destruct (float_of_string s) as [x|e] eqn:F.
    + left. injection P as E1 E2 E3. repeat split; congruence.
    + pose proof (float_of_string_exn _ _ F). subst e.
      destruct (FRACTION_RE s) as [df|] eqn:M; [|discriminate].
      fold (fraction_value df) in P.
      right. exists s, df.
      assert (Q : exists x, fraction_value df = Ok x
                            /\ distance._num t = Some (int_of_digits (g_num df))
                            /\ distance._den t = Some (int_of_digits (g_den df))).
      { unfold fraction_value in *.
        destruct (float_of_Z (int_of_digits (g_num df))) as [fn|]; [|discriminate].
        destruct (float_of_Z (int_of_digits (g_den df))) as [fd|]; [|discriminate].
        cbn [bind] in *. destruct (float_div fn fd) as [q|]; [|discriminate].
        cbn [bind] in *. destruct (g_int df) as [i|].
        - destruct (float_of_string (string_of_list_ascii i)) as [fi|]; [|discriminate].
          cbn [bind] in *. injection P as E1 E2 E3. eauto.
        - cbn [bind] in *. injection P as E1 E2 E3. eauto. }
      destruct Q as (x & FV & En & Ed).
      repeat split; auto. exact (fraction_value_den _ _ FV).
Qed.

Lemma distance_fraction_presence_witness :
  let t := {| distance._units := "KM"; distance._gtlt := Some ">";
              distance._value := 10; distance._num := None; distance._den := None |} in
  (py_float (PyStr "10") = Ok (distance._value t)
   /\ distance._num t = None /\ distance._den t = None)
  \/ (exists s df,
        PyStr "10" = PyStr s
        /\ float_of_string s = Raise ValueError
        /\ FRACTION_RE s = Some df
        /\ distance._num t = Some (int_of_digits (g_num df))
        /\ distance._den t = Some (int_of_digits (g_den df))
        /\ int_of_digits (g_den df) <> 0).
Proof.
  exact (distance_fraction_presence (PyStr "P10") (Some "KM") None
           {| distance._units := "KM"; distance._gtlt := Some ">";
              distance._value := 10; distance._num := None; distance._den := None |}
           ltac:(vm_compute; reflexivity)).
Defined.



(** ** [direction]: every constructed direction *)

(** X6: A second call of [compass()] returns what the first returned and
    leaves the instance as the first left it. *)
Theorem compass_idempotent (t : direction.t) :
  direction.compass (snd (direction.compass t)) = direction.compass t.
Proof.
  destruct t as [c d]. unfold direction.compass.
  cbn [direction._compass direction._degrees].
  destruct (falsy c) eqn:F; cbn [fst snd direction._compass direction._degrees];
    [|rewrite F; reflexivity].
  set (b := (22.5 * py_round (d / 22.5))%float). clearbody b.
  destruct (b =? 360)%float eqn:B; [reflexivity|].
  destruct (direction.find_name b direction.compass_dirs) as [n|].
  - destruct (falsy (Some n)); reflexivity.
  - rewrite F. reflexivity.
Qed.

(** Between two positive finite numbers, "not greater" is "at most". *)
Lemma SFltb_false_SFleb (m mb : positive) (e eb : Z) :
  SFltb (S754_finite false mb eb) (S754_finite false m e) = false ->
  SFleb (S754_finite false m e) (S754_finite false mb eb) = true.
Proof.
  unfold SFltb, SFleb, SFcompare. rewrite (Z.compare_antisym eb e).
  destruct (eb ?= e); cbn [CompOpp]; try discriminate; try reflexivity.
  pose proof (Pos.compare_antisym mb m) as A. unfold Pos.compare in A.
  rewrite A. destruct (Pos.compare_cont Eq mb m); cbn [CompOpp];
    try discriminate; reflexivity.
Qed.

(** What the range test of [__init__] lets through: the floats from [0] to
    [360], and nan, for which both comparisons are false. *)
Lemma accepted_degrees (d : float) :
  (d <? 0)%float = false -> (360 <? d)%float = false ->
  d = nan \/ ((0 <=? d)%float = true /\ (d <=? 360)%float = true).
Proof.
  rewrite !ltb_spec, !leb_spec, Prim2SF_360.
  change (Prim2SF 0) with (S754_zero false).
  destruct (Prim2SF d) as [s|s| |s m e] eqn:E.
  - intros _ _. right. split; reflexivity.
  - destruct s; cbn; discriminate.
  - intros _ _. left. rewrite <- (SF2Prim_Prim2SF d), E. try reflexivity.
  - destruct s; [cbn; discriminate|]. intros _ H. right. split; [reflexivity|].
    exact (SFltb_false_SFleb m m45 e (-44) H).
Qed.

(** X7: [compass()] on a constructed direction returns one of the names of the
    table; the one exception is a direction constructed from the token
    [nan], which the range test accepts and for which [compass()] returns
    [None]. *)
Theorem compass_of_constructed (tok : pyval) (t : direction.t) :
  direction.__init__ tok = Ok t ->
  (direction._degrees t = nan /\ fst (direction.compass t) = None)
  \/ (exists name deg,
        fst (direction.compass t) = Some name
        /\ direction.lookup name direction.compass_dirs = Some deg).
Proof.
  unfold direction.__init__.
  destruct (direction.has_key tok) as [[name deg]|] eqn:K.
  - intros H. injection H as <-. right. exists name, deg.
    assert (L : direction.lookup name direction.compass_dirs = Some deg).
    { unfold direction.has_key in K. destruct tok as [z|f|s]; try discriminate.
      destruct (direction.lookup s direction.compass_dirs) as [x|] eqn:L;
        [|discriminate].
      cbn in K. injection K as <- <-. assumption. }
    destruct (compass_named name deg L) as (_ & _ & C).
    rewrite C. auto.
  - intros H. apply bind_ok in H. destruct H as (d & F & H).
    destruct ((d <? 0)%float || (360 <? d)%float) eqn:R; [discriminate|].
    injection H as <-. apply orb_false_iff in R. destruct R as [R0 R1].
    destruct (accepted_degrees d R0 R1) as [->|[H0 H1]].
    + left. split; vm_compute; reflexivity.
    + right. destruct (compass_numeric d H0 H1) as (name & C & _ & NB).
      exists name. destruct NB as [[_ ->]|[_ (deg & L & _)]].
      * exists 0%float. auto.
      * exists deg. auto.
Qed.

Lemma compass_of_constructed_witness :
  (337.5%float = nan
   /\ fst (direction.compass
             {| direction._compass := Some "NNW"; direction._degrees := 337.5 |})
      = None)
  \/ (exists name deg,
        fst (direction.compass
               {| direction._compass := Some "NNW"; direction._degrees := 337.5 |})
        = Some name
        /\ direction.lookup name direction.compass_dirs = Some deg).
Proof.
  exact (compass_of_constructed (PyStr "NNW")
           {| direction._compass := Some "NNW"; direction._degrees := 337.5 |}
           ltac:(vm_compute; reflexivity)).
Defined.

(** ** [speed]: the text of a speed *)

Lemma speed_unit_cases (U : string) :
  mem U speed.legal_units = true ->
  U = "KT" \/ U = "MPS" \/ U = "KMH" \/ U = "MPH".
Proof.
  unfold mem, speed.legal_units. cbn [existsb].
  rewrite !orb_true_iff, !String.eqb_eq. intuition discriminate.
Qed.

Lemma own_unit_resolved (legal : list string) (U : string) (q : option string) :
  mem U legal = true -> mem "" legal = false ->
  (falsy q = true \/ exists u, q = Some u /\ upper u = U) ->
  (if falsy q then Ok U else check_units legal (given q)) = Ok U.
Proof.
  intros M E [F|(u & -> & Eu)]; [rewrite F; reflexivity|].
  rewrite <- Eu in M. rewrite falsy_some by exact (mem_nonempty _ _ M E).
  simpl given. rewrite (check_units_mem _ _ M), Eu. reflexivity.
Qed.

(** X8: [string()] with no unit, with an empty unit or with the construction
    unit never fails on a constructed speed, whatever its unit: it is the
    stored value with no decimals (one for [MPS]) and the unit word, after
    the qualifier words.  With another legal unit it raises [TypeError] for
    a speed constructed in [KMH] and [UnboundLocalError] for one constructed
    in [MPH]. *)
Theorem speed_string_own_unit
    (v : pyval) (u0 g : option string) (t : speed.t) :
  speed.__init__ v u0 g = Ok t ->
  (forall q,
      (falsy q = true \/ exists u, q = Some u /\ upper u = speed._units t) ->
      speed.string t q
      = Ok (with_gtlt (speed._gtlt t) (speed_text (speed._units t) (speed._value t))))
  /\ (forall u U,
        check_units speed.legal_units u = Ok U -> U <> speed._units t ->
        (speed._units t = "KMH" -> speed.string t (Some u) = Raise TypeError)
        /\ (speed._units t = "MPH" ->
            speed.string t (Some u) = Raise UnboundLocalError)).
Proof.
  intros I. pose proof (speed_init_units _ _ _ _ I) as M. split.
  - intros q Q. unfold speed.string.
    rewrite (own_unit_resolved _ _ _ M eq_refl Q). cbn [bind].
    destruct t as [U gt x]. cbn [speed._units speed._gtlt speed._value] in *.
    destruct (speed_unit_cases _ M) as [->|[->|[->| ->]]]; reflexivity.
  - intros u U C N.
    assert (F : falsy (Some u) = false).
    { destruct (check_units_ok _ _ _ C) as [-> MU].
      apply falsy_some. exact (mem_nonempty _ _ MU eq_refl). }
    assert (CU : check_units speed.legal_units U = Ok U).
    { destruct (check_units_ok _ _ _ C) as [_ MU].
      destruct (speed_unit_cases _ MU) as [->|[->|[->| ->]]]; reflexivity. }
    split; intros K; unfold speed.string; rewrite F; simpl given; rewrite C;
      cbn [bind].
    + rewrite (speed_value_KMH t U U K CU); [reflexivity | congruence].
    + rewrite (speed_value_MPH t U U K CU); [reflexivity | congruence].
Qed.

Lemma speed_string_own_unit_witness :
  speed.string {| speed._units := "KMH"; speed._gtlt := Some ">"; speed._value := 10 |}
    None
  = Ok "greater than 10 km/h".
Proof.
  exact (proj1 (speed_string_own_unit (PyStr "10") (Some "kmh") (Some ">")
                  {| speed._units := "KMH"; speed._gtlt := Some ">";
                     speed._value := 10 |}
                  ltac:(vm_compute; reflexivity))
           None (or_introl eq_refl)).
Defined.

(** ** The qualifier words *)

(** X9: [string()] of a speed or of a distance is [string()] of the same
    quantity without qualifier, with ["greater than "] in front for [>],
    ["less than "] for [<] and nothing otherwise; it fails when that one
    fails. *)
Theorem string_qualifier_prefix :
  (forall (t : speed.t) (q : option string),
      speed.string t q
      = (s <- speed.string (speed_unqualified t) q ;;
         Ok (with_gtlt (speed._gtlt t) s)))
  /\ (forall (t : distance.t) (q : option string),
        distance.string t q
        = (s <- distance.string (distance_unqualified t) q ;;
           Ok (with_gtlt (distance._gtlt t) s))).
Proof.
  split.
  - intros [U g x] q. unfold speed.string, speed_unqualified.
    cbn [speed._units speed._gtlt speed._value].
    destruct (if falsy q then _ else _) as [units|e]; [|reflexivity]. cbn [bind].
    change (speed.value {| speed._units := U; speed._gtlt := None;
                           speed._value := x |} (Some units))
      with (speed.value {| speed._units := U; speed._gtlt := g;
                           speed._value := x |} (Some units)).
    destruct (speed.value _ (Some units)) as [val|e]; [|reflexivity]. cbn [bind].
    destruct (if String.eqb units "KMH" then _ else _) as [[text|]|e]; reflexivity.
  - intros [U g x n d] q. unfold distance.string, distance_unqualified.
    cbn [distance._units distance._gtlt distance._value distance._num distance._den].
    destruct (if falsy q then _ else _) as [units|e]; [|reflexivity]. cbn [bind].
    change (distance.has_fraction
              {| distance._units := U; distance._gtlt := None; distance._value := x;
                 distance._num := n; distance._den := d |})
      with (distance.has_fraction
              {| distance._units := U; distance._gtlt := g; distance._value := x;
                 distance._num := n; distance._den := d |}).
    change (distance.value
              {| distance._units := U; distance._gtlt := None; distance._value := x;
                 distance._num := n; distance._den := d |} (Some units))
      with (distance.value
              {| distance._units := U; distance._gtlt := g; distance._value := x;
                 distance._num := n; distance._den := d |} (Some units)).
    destruct (match (if String.eqb units U then _ else None) with
              | Some _ => _ | None => _ end) as [text|e]; reflexivity.
Qed.

(** ** [pressure]: conversions *)

Lemma pressure_unit_cases (U : string) :
  mem U pressure.legal_units = true -> U = "MB" \/ U = "HPA" \/ U = "IN".
Proof.
  unfold mem, pressure.legal_units. cbn [existsb].
  rewrite !orb_true_iff, !String.eqb_eq. intuition discriminate.
Qed.

(** X10: On a constructed pressure, [value(u)] and [string(u)] never fail for a
    legal unit: [string(u)] is [value(u)] with one decimal (two for inches)
    and the unit word.  [MB] and [HPA] are two names of one unit: between
    them the stored value is returned as it is; from inches it is
    multiplied by [33.86398] and to inches divided by it. *)
Theorem pressure_conversions
    (v : pyval) (u0 : option string) (t : pressure.t) (u U : string) :
  pressure.__init__ v u0 = Ok t ->
  check_units pressure.legal_units u = Ok U ->
  exists x,
    pressure.value t (Some u) = Ok (Some x)
    /\ pressure.string t (Some u)
       = Ok (Some (format_f (pressure_decimals U) x ++ pressure_word U)%string)
    /\ (millibar U = true -> millibar (pressure._units t) = true ->
        x = pressure._value t)
    /\ (millibar U = true -> pressure._units t = "IN" ->
        x = (pressure._value t * 33.86398)%float)
    /\ (U = "IN" -> millibar (pressure._units t) = true ->
        x = (pressure._value t / 33.86398)%float).
Proof.
  intros I C. pose proof (pressure_init_units _ _ _ I) as M.
  destruct (check_units_ok _ _ _ C) as [EU MU].
  assert (F : falsy (Some u) = false).
  { apply falsy_some. rewrite EU in MU. exact (mem_nonempty _ _ MU eq_refl). }
  unfold pressure.string, pressure.value. rewrite F. simpl given. rewrite C.
  cbn [bind]. destruct t as [x T]. cbn [pressure._units pressure._value] in *.
  clear EU C F I.
  destruct (pressure_unit_cases _ MU) as [->|[->| ->]];
    destruct (pressure_unit_cases _ M) as [->|[->| ->]];
    eexists; (split; [reflexivity|]); (split; [reflexivity|]);
    repeat split; intros; try reflexivity; discriminate.
Qed.

Lemma pressure_conversions_witness :
  exists x,
    pressure.value {| pressure._value := 1013.25; pressure._units := "MB" |} (Some "in")
    = Ok (Some x)
    /\ pressure.string {| pressure._value := 1013.25; pressure._units := "MB" |}
         (Some "in")
       = Ok (Some (format_f 2 x ++ " inches")%string)
    /\ x = (1013.25 / 33.86398)%float.
Proof.
  destruct (pressure_conversions (PyFloat 1013.25) (Some "MB")
              {| pressure._value := 1013.25; pressure._units := "MB" |} "in" "IN"
              ltac:(vm_compute; reflexivity) ltac:(vm_compute; reflexivity))
    as (x & V & S & _ & _ & E).
  exists x. repeat split; [exact V | exact S | exact (E eq_refl eq_refl)].
Defined.

(** ** [temperature]: conversions *)

Lemma temperature_unit_cases (U : string) :
  mem U temperature.legal_units = true -> U = "F" \/ U = "C" \/ U = "K".
Proof.
  unfold mem, temperature.legal_units. cbn [existsb].
  rewrite !orb_true_iff, !String.eqb_eq. intuition discriminate.
Qed.

(** X11: On a temperature constructed from a token that gave it a value,
    [value(u)] and [string(u)] never fail for a legal unit; [string(u)] is
    [value(u)] with one decimal, a space and the unit letter.  Every
    conversion goes through Celsius, the one to the construction unit too:
    it returns the stored value for [C], but [273.15 + (v - 273.15)] for [K]
    and [32.0 + ((v - 32.0)/1.8)*1.8] for [F], which need not be [v]: the
    value [0.1] constructed in [K] reads [0.10000000000002274] in [K]. *)
Theorem temperature_conversions
    (v : pyval) (u0 : option string) (t : temperature.t) (raw : float) (u U : string) :
  temperature.__init__ v u0 = Ok t ->
  temperature._value t = Some raw ->
  check_units temperature.legal_units u = Ok U ->
  let x := of_celsius U (to_celsius (temperature._units t) raw) in
  temperature.value t (Some u) = Ok (Some x)
  /\ temperature.string t (Some u)
     = Ok (Some (format_f 1 x ++ " " ++ U)%string)
  /\ (U = "C" -> temperature._units t = "C" -> x = raw)
  /\ (t' <- temperature.__init__ (PyStr "0.1") (Some "K") ;;
      temperature.value t' (Some "K"))
     = Ok (Some 0.10000000000002274%float).
Proof.
  intros I R C x. destruct (temperature_init_units _ _ _ I) as [_ M].
  destruct (check_units_ok _ _ _ C) as [EU MU].
  unfold temperature.string, temperature.value. rewrite C. cbn [bind].
  destruct t as [T o]. cbn [temperature._units temperature._value] in *.
  subst o x. clear EU C I.
  destruct (temperature_unit_cases _ MU) as [->|[->| ->]];
    destruct (temperature_unit_cases _ M) as [->|[->| ->]];
    (split; [reflexivity|]); (split; [reflexivity|]);
    (split; [intros; try reflexivity; discriminate | vm_compute; reflexivity]).
Qed.

Lemma temperature_conversions_witness :
  temperature.value {| temperature._units := "C"; temperature._value := Some 20%float |}
    (Some "f")
  = Ok (Some (32.0 + 20 * 1.8)%float).
Proof.
  exact (proj1 (temperature_conversions (PyStr "20") None
                  {| temperature._units := "C"; temperature._value := Some 20%float |}
                  20%float "f" "F"
                  ltac:(vm_compute; reflexivity) eq_refl eq_refl)).
Defined.

(** ** [temperature]: what the constructor does with a string *)

(** X12: With a unit that is accepted, the constructor of [temperature] stores
    the float of a token that [float()] accepts; for a token [M<rest>]
    whose remainder [float()] refuses it raises [ValueError]; for any
    other token that [float()] refuses it returns an instance whose value
    is not set. *)
Theorem temperature_init_cases (s U : string) (units : option string) :
  check_units temperature.legal_units
    (match units with Some u => u | None => "C" end) = Ok U ->
  (forall f, float_of_string s = Ok f ->
     temperature.__init__ (PyStr s) units
     = Ok {| temperature._units := U; temperature._value := Some f |})
  /\ (forall rest, s = String "M" rest ->
        float_of_string rest = Raise ValueError ->
        temperature.__init__ (PyStr s) units = Raise ValueError)
  /\ (float_of_string s = Raise ValueError ->
      (forall rest, s <> String "M" rest) ->
      temperature.__init__ (PyStr s) units
      = Ok {| temperature._units := U; temperature._value := None |}).
Proof.
  intros C. split; [|split].
  - intros f F. unfold temperature.__init__. rewrite C. cbn [bind py_float].
    rewrite F. reflexivity.
  - intros rest -> F. unfold temperature.__init__. rewrite C. cbn [bind py_float].
    rewrite float_of_string_M, F. reflexivity.
  - intros F N. exact (temperature_init_swallows s U units F N C).
Qed.

Lemma temperature_init_cases_witness :
  temperature.__init__ (PyStr "M1x") (Some "f") = Raise ValueError.
Proof.
  exact (proj1 (proj2 (temperature_init_cases "M1x" "F" (Some "f") eq_refl))
           "1x" eq_refl ltac:(vm_compute; reflexivity)).
Defined.

(** ** [distance]: conversions and the numeric text *)

(** X13: On a constructed distance, [value(u)] never fails for a legal unit: it
    is the stored value for the construction unit and goes through meters
    otherwise, also between [SM] and [MI], the two names of the mile, where
    the value is multiplied and divided by [1609.344]:
    [distance("1 3/4", "SM").value("MI")] is [1.7499999999999998]. *)
Theorem distance_conversions
    (v : pyval) (u0 g : option string) (t : distance.t) (u U : string) :
  distance.__init__ v u0 g = Ok t ->
  check_units distance.legal_units u = Ok U ->
  distance.value t (Some u)
  = Ok (Some (if String.eqb U (distance._units t) then distance._value t
              else of_meters U (to_meters (distance._units t) (distance._value t))))
  /\ (statute U = true -> statute (distance._units t) = true ->
      U <> distance._units t ->
      distance.value t (Some u)
      = Ok (Some (distance._value t * 1609.344 / 1609.344)%float))
  /\ (t' <- distance.__init__ (PyStr "1 3/4") (Some "SM") None ;;
      distance.value t' (Some "MI"))
     = Ok (Some 1.7499999999999998%float).
Proof.
  intros I C. pose proof (distance_init_units _ _ _ _ I) as M.
  destruct (check_units_ok _ _ _ C) as [EU MU].
  assert (F : falsy (Some u) = false).
  { apply falsy_some. rewrite EU in MU. exact (mem_nonempty _ _ MU eq_refl). }
  unfold distance.value. rewrite F. simpl given. rewrite C. cbn [bind].
  destruct t as [T gt x n d].
  cbn [distance._units distance._value] in *. clear EU C F I.
  destruct (legal_unit_cases _ MU) as [->|[->|[->|[->| ->]]]];
    destruct (legal_unit_cases _ M) as [->|[->|[->|[->| ->]]]];
    (split; [reflexivity|]);
    (split; [intros; try reflexivity; try discriminate; congruence
            | vm_compute; reflexivity]).
Qed.

Lemma distance_conversions_witness :
  distance.value
    {| distance._units := "KM"; distance._gtlt := None; distance._value := 10;
       distance._num := None; distance._den := None |} (Some "m")
  = Ok (Some (10 * 1000)%float).
Proof.
  exact (proj1 (distance_conversions (PyStr "10") (Some "km") None
                  {| distance._units := "KM"; distance._gtlt := None;
                     distance._value := 10; distance._num := None;
                     distance._den := None |} "m" "M"
                  ltac:(vm_compute; reflexivity) eq_refl)).
Defined.

(** X14: [string()] in the construction unit (or with no unit) of a constructed
    distance that holds no fraction, or a fraction whose numerator is zero,
    is the stored value with no decimals (one for [KM]) and the unit word,
    after the qualifier words. *)
Theorem distance_numeric_string
    (v : pyval) (u0 g : option string) (t : distance.t) (q : option string) :
  distance.__init__ v u0 g = Ok t ->
  distance.has_fraction t = None ->
  (falsy q = true \/ exists u, q = Some u /\ upper u = distance._units t) ->
  distance.string t q
  = Ok (with_gtlt (distance._gtlt t)
          (format_f (if String.eqb (distance._units t) "KM" then 1 else 0)
             (distance._value t)
           ++ distance.unit_word (distance._units t))%string).
Proof.
  intros I H Q. pose proof (distance_init_units _ _ _ _ I) as M.
  unfold distance.string.
  rewrite (own_unit_resolved _ _ _ M eq_refl Q). cbn [bind].
  rewrite String.eqb_refl, H.
  destruct t as [T gt x n d].
  cbn [distance._units distance._gtlt distance._value] in *. clear I H Q.
  destruct (legal_unit_cases _ M) as [->|[->|[->|[->| ->]]]];
    cbn;
    match goal with
    | |- context [check_units ?l ?x] => change (check_units l x) with (Ok x)
    end;
    cbn; rewrite append_empty_r; reflexivity.
Qed.

Lemma distance_numeric_string_witness :
  distance.string
    {| distance._units := "KM"; distance._gtlt := Some ">"; distance._value := 10;
       distance._num := None; distance._den := None |} None
  = Ok ("greater than " ++ format_f 1 10 ++ " km")%string.
Proof.
  exact (distance_numeric_string (PyStr "P10") (Some "km") None
           {| distance._units := "KM"; distance._gtlt := Some ">";
              distance._value := 10; distance._num := None;
              distance._den := None |} None
           ltac:(vm_compute; reflexivity) eq_refl (or_introl eq_refl)).
Defined.

Lemma find_name_any_order_witness :
  direction.find_name 22.5 (rev direction.compass_dirs)
  = direction.find_name 22.5 direction.compass_dirs.
Proof.
  apply find_name_any_order. intros x. symmetry. apply in_rev.
Defined.
